(** * VList: the variable-height virtual list of [src/app/containers/VList/index.tsx]

    A shallow embedding of the [VirtualList] component: its height store
    ([itemHeights]), the prefix sum [getCumulativeHeight], the window
    resolver ([findStartIndex], [findEndIndex]), the three effects, the
    [updateH] callback and the render function.

    Numbers.  The component works on JavaScript numbers.  Pixel heights,
    scroll offsets, indices and counts are modelled as integers ([Z]) with
    exact arithmetic; the one non-integer value the code can produce is
    [NaN], which arises when [undefined] (an array hole, or a read past the
    end of the array) is added to a running sum.

    What this leaves out.  Every number that the component is given (its
    numeric props, the scroll offsets, the measured heights) is an integer
    here.  A [bufferCount] that is not an integer makes [findStartIndex]
    return an index that is not an integer, for which [data[idx]] is
    [undefined]; and an assignment at a negative index creates a property of
    the array object instead of an element.  Neither is part of the model:
    the properties below are properties of the component on integer inputs
    and on the elements of its store. *)

From Stdlib Require Import ZArith Lia.
From stdpp Require Import base list strings pretty.

Local Open Scope Z_scope.

(** ** JavaScript numbers and arrays *)

Module JS.

Inductive number : Type :=
| Num (z : Z)
| NaN.

(** [ToNumber]: [undefined] becomes [NaN]. *)
Definition to_number (v : option Z) : number :=
  match v with
  | Some z => Num z
  | None => NaN
  end.

(** [a + b] on numbers. *)
Definition add (a b : number) : number :=
  match a, b with
  | Num x, Num y => Num (x + y)
  | _, _ => NaN
  end.

(** [a < b], [a > b], [a <= b]: every comparison with [NaN] is false. *)
Definition lt (a b : number) : bool :=
  match a, b with
  | Num x, Num y => x <? y
  | _, _ => false
  end.

Definition gt (a b : number) : bool := lt b a.

Definition le (a b : number) : bool :=
  match a, b with
  | Num x, Num y => x <=? y
  | _, _ => false
  end.

(** A [number[]]: a cell is a number or a hole, which reads as
    [undefined]. *)
Abbreviation array := (list (option Z)).

(** [a[i]] with a natural index: [undefined] for a hole or past the end. *)
Definition get (a : array) (i : nat) : option Z := mjoin (a !! i).

(** [a[i]] with an arbitrary integer index, as an element of the array: a
    negative index names no element.  (It names a property of the array
    object, which can only exist after an assignment at that negative index;
    such properties are not modelled, and the component reads no negative
    index: its reads start at 0 or at a start index clamped at 0.) *)
Definition getZ (a : array) (i : Z) : option Z :=
  if i <? 0 then None else get a (Z.to_nat i).

(** [a[i] = v]: overwrites in range; past the end the array grows, and the
    cells skipped over are holes. *)
Definition set (a : array) (i : nat) (v : Z) : array :=
  if decide (i < length a)%nat
  then <[i := Some v]> a
  else a ++ replicate (i - length a)%nat None ++ [Some v].

(** [new Array(n).fill(v)] *)
Definition filled (n : nat) (v : Z) : array := replicate n (Some v).

(** [Array.from({ length: len }, (_, i) => i + start)]: a negative length
    counts as zero. *)
Definition from_length (len start : Z) : list Z :=
  (fun i : nat => Z.of_nat i + start) <$> seq 0 (Z.to_nat len).

End JS.

Import JS.

(** ** Props, items and component state *)

Record Item : Type := mkItem { id : string; content : string }.

(** The props, with [bufferCount] already defaulted.  The three numbers are
    integers (the type [number] of the source also admits fractions, which
    are outside the model). *)
Record VirtualListProps : Type := mkProps {
  data : list Item;
  containerHeight : Z;
  estimatedItemHeight : Z;
  bufferCount : Z
}.

(** The hooks of [VirtualList]: two pieces of [useState] that take part in
    the window ([scrollTop], [renderList]), the spacer height ([height]) and
    the mutable ref [itemHeights]. *)
Record State : Type := mkState {
  scrollTop : Z;
  itemHeights : array;
  height : number;
  renderList : list Z
}.

(** ** getCumulativeHeight

    [let h = 0, idx = 0; while (idx < index) { h += itemHeights[idx]; idx++ }]
    The counter runs from 0 up to [index], so the body is executed
    [Z.to_nat index] times; [cumulative_loop n] is the loop with [n]
    iterations left. *)
Fixpoint cumulative_loop (hs : array) (n : nat) (h : number) (idx : nat) : number :=
  match n with
  | O => h
  | S n' => cumulative_loop hs n' (add h (to_number (get hs idx))) (S idx)
  end.

Definition getCumulativeHeight (hs : array) (index : Z) : number :=
  cumulative_loop hs (Z.to_nat index) (Num 0) 0.

(** ** findStartIndex

    [while (sum < scrollPosition) { sum += itemHeights[idx]; idx++ }]
    The loop has no bound of its own, so it is run on fuel: one unit per
    iteration, [None] when the fuel is gone while the test still holds.
    The result is the final [(sum, idx)]; since [idx] starts at 0 and grows
    by one per iteration, the final [idx] is the number of iterations. *)
Fixpoint start_loop (hs : array) (scrollPosition : Z) (fuel : nat)
    (sum : number) (idx : nat) : option (number * nat) :=
  if lt sum (Num scrollPosition) then
    match fuel with
    | O => None
    | S fuel' =>
        let itemH := get hs idx in
        start_loop hs scrollPosition fuel' (add sum (to_number itemH)) (S idx)
    end
  else Some (sum, idx).

(** Fuel that always suffices (lemma [start_loop_total] below): one
    iteration per cell and one more for the read past the end. *)
Definition start_fuel (hs : array) : nat := S (length hs).

Definition findStartIndex (hs : array) (bufferCount : Z) (scrollPosition : Z)
    : option Z :=
  match start_loop hs scrollPosition (start_fuel hs) (Num 0) 0 with
  | Some (_, idx) => Some (Z.max 0 (Z.of_nat idx - bufferCount))
  | None => None
  end.

(** ** findEndIndex

    [for (let i = startIndex; i < data.length; i++) { totalHeight +=
    itemHeights[i]; endIndex = i; if (totalHeight > containerHeight +
    bufferCount * estimatedItemHeight) break; }]
    [end_loop n] is the loop with [n] values of [i] left below
    [data.length]. *)
Fixpoint end_loop (hs : array) (threshold : Z) (n : nat)
    (i : Z) (totalHeight : number) (endIndex : Z) : Z :=
  match n with
  | O => endIndex
  | S n' =>
      let totalHeight := add totalHeight (to_number (getZ hs i)) in
      let endIndex := i in
      if gt totalHeight (Num threshold) then endIndex
      else end_loop hs threshold n' (i + 1) totalHeight endIndex
  end.

Definition findEndIndex (p : VirtualListProps) (hs : array) (startIndex : Z) : Z :=
  let len := Z.of_nat (length (data p)) in
  let endIndex :=
    end_loop hs (containerHeight p + bufferCount p * estimatedItemHeight p)
      (Z.to_nat (len - startIndex)) startIndex (Num 0) startIndex in
  Z.min (len - 1) (endIndex + bufferCount p).

(** ** Outcomes of the component's code

    A run of component code finishes with a value, throws (the render
    function dereferences [data[idx]]), or is cut off by the fuel of
    [start_loop]. *)
Inductive outcome (A : Type) : Type :=
| Done (a : A)
| Throws (e : string)
| OutOfFuel.

Arguments Done {A} a.
Arguments Throws {A} e.
Arguments OutOfFuel {A}.

Definition bind {A B : Type} (m : outcome A) (k : A -> outcome B) : outcome B :=
  match m with
  | Done a => k a
  | Throws e => Throws e
  | OutOfFuel => OutOfFuel
  end.

Notation "'do' x <- m 'in' k" := (bind m (fun x => k))
  (at level 10, x name, m at level 100, k at level 200).

Definition of_fuel {A : Type} (o : option A) : outcome A :=
  match o with
  | Some a => Done a
  | None => OutOfFuel
  end.

Fixpoint mapM {A B : Type} (f : A -> outcome B) (l : list A) : outcome (list B) :=
  match l with
  | [] => Done []
  | a :: l' => do b <- f a in do bs <- mapM f l' in Done (b :: bs)
  end.

(** ** The component *)

Definition set_scrollTop (st : State) (v : Z) : State :=
  mkState v (itemHeights st) (height st) (renderList st).
Definition set_itemHeights (st : State) (hs : array) : State :=
  mkState (scrollTop st) hs (height st) (renderList st).
Definition set_height (st : State) (h : number) : State :=
  mkState (scrollTop st) (itemHeights st) h (renderList st).
Definition set_renderList (st : State) (l : list Z) : State :=
  mkState (scrollTop st) (itemHeights st) (height st) l.

(** Hook values of the first render: [useState(0)], [useRef([])],
    [useState(0)], [useState([])]. *)
Definition initial : State := mkState 0 [] (Num 0) [].

(** First effect: [itemHeights.current = new Array(data.length).fill(estimatedItemHeight)]. *)
Definition initEffect (p : VirtualListProps) (st : State) : State :=
  set_itemHeights st (filled (length (data p)) (estimatedItemHeight p)).

(** [startIndex = findStartIndex(scrollTop); endIndex = findEndIndex(startIndex)] *)
Definition resolveWindow (p : VirtualListProps) (hs : array) (scrollTop : Z)
    : option (Z * Z) :=
  match findStartIndex hs (bufferCount p) scrollTop with
  | Some startIndex => Some (startIndex, findEndIndex p hs startIndex)
  | None => None
  end.

(** Second effect: resolve the window and store the indices to render. *)
Definition windowEffect (p : VirtualListProps) (st : State) : outcome State :=
  do w <- of_fuel (resolveWindow p (itemHeights st) (scrollTop st)) in
  let '(startIndex, endIndex) := w in
  let idxArr := from_length (endIndex - startIndex) startIndex in
  Done (set_renderList st idxArr).

(** Third effect:
    [setHeight(data?.length ? getCumulativeHeight(data.length - 1) : 0)]. *)
Definition heightEffect (p : VirtualListProps) (st : State) : State :=
  let height :=
    if (length (data p) =? 0)%nat then Num 0
    else getCumulativeHeight (itemHeights st) (Z.of_nat (length (data p)) - 1) in
  set_height st height.

(** Mounting runs the three effects in the order they are declared. *)
Definition mount (p : VirtualListProps) : outcome State :=
  do st <- windowEffect p (initEffect p initial) in
  Done (heightEffect p st).

(** [updateH(idx, h)]: [itemHeights.current[idx] = h].  A negative [idx] is
    not an array index: the assignment then leaves every element and the
    length alone.  (The property it creates on the array object is not
    modelled; the component itself calls [updateH] with indices of its
    render list only, which are never negative.) *)
Definition updateH (idx h : Z) (st : State) : State :=
  if idx <? 0 then st
  else set_itemHeights st (set (itemHeights st) (Z.to_nat idx) h).

(** [handleScroll]: [setScrollTop(v)]; the window effect depends on
    [scrollTop] and runs again when the value has changed. *)
Definition handleScroll (p : VirtualListProps) (v : Z) (st : State) : outcome State :=
  if v =? scrollTop st then Done st
  else windowEffect p (set_scrollTop st v).

(** What happens to a mounted list: the viewport scrolls, or a cell reports
    its measured height. *)
Inductive event : Type :=
| Scroll (v : Z)
| Measure (idx h : Z).

Definition step (p : VirtualListProps) (st : State) (ev : event) : outcome State :=
  match ev with
  | Scroll v => handleScroll p v st
  | Measure idx h => Done (updateH idx h st)
  end.

Fixpoint run (p : VirtualListProps) (evs : list event) (st : State) : outcome State :=
  match evs with
  | [] => Done st
  | ev :: evs' => do st' <- step p st ev in run p evs' st'
  end.

(** The component's life: mounted, then a sequence of events. *)
Definition lifetime (p : VirtualListProps) (evs : list event) : outcome State :=
  do st <- mount p in run p evs st.

(** ** Rendering *)

Record Cell : Type := mkCell {
  key : string;
  cell_idx : Z;
  top : number;
  cell_content : string
}.

Record View : Type := mkView {
  spacer : number;
  cells : list Cell
}.

(** [data[idx]] *)
Definition data_at (p : VirtualListProps) (idx : Z) : option Item :=
  if idx <? 0 then None else data p !! Z.to_nat idx.

(** One [DynamicItem]: [const item = data[idx]!], keyed by [item.id], placed
    at [idx === 0 ? 0 : getHeightByIdx(idx)].  Reading [item.id] of a missing
    item throws. *)
Definition renderCell (p : VirtualListProps) (st : State) (idx : Z) : outcome Cell :=
  match data_at p idx with
  | Some item =>
      let top := if idx =? 0 then Num 0 else getCumulativeHeight (itemHeights st) idx in
      Done (mkCell (id item) idx top (content item))
  | None => Throws "TypeError"
  end.

(** One render pass of [VirtualList] in state [st]: the spacer and one
    [DynamicItem] per index of the render list, each computing its [top]
    from the store as it is during the pass.  (All cells take part in a
    pass: their [updateH] prop is a new function each time, so [memo] skips
    none.)  A pass happens when a piece of [useState] changes; [updateH]
    changes none, so between two passes the cells already mounted keep the
    [top] of the pass that rendered them. *)
Definition render (p : VirtualListProps) (st : State) : outcome View :=
  do cs <- mapM (renderCell p st) (renderList st) in
  Done (mkView (height st) cs).

(** Indices of the cells that a render pass produces. *)
Definition rendered_indices (v : View) : list Z := cell_idx <$> cells v.

(** ** Vocabulary of the properties *)

(** Sum of the heights held by a store (a hole counts for nothing). *)
Fixpoint total (hs : array) : Z :=
  match hs with
  | [] => 0
  | c :: hs' => default 0 c + total hs'
  end.

(** Every cell of the store holds a number accepted by [ok]. *)
Definition all_heights (ok : Z -> bool) (hs : array) : bool :=
  forallb (fun c => match c with Some z => ok z | None => false end) hs.

Definition positive_store (hs : array) : bool := all_heights (fun z => 0 <? z) hs.
Definition nonneg_store (hs : array) : bool := all_heights (fun z => 0 <=? z) hs.

(** A measurement event that writes a height accepted by [ok] at an index
    of the collection; scroll events are unconstrained. *)
Definition event_writes (ok : Z -> bool) (p : VirtualListProps) (ev : event) : bool :=
  match ev with
  | Scroll _ => true
  | Measure idx h => (0 <=? idx) && (idx <? Z.of_nat (length (data p))) && ok h
  end.

(** A window [{startIndex, endIndex}] over [n] items with
    [0 <= startIndex <= endIndex <= n - 1]. *)
Definition valid_window (n : nat) (w : Z * Z) : bool :=
  (0 <=? w.1) && (w.1 <=? w.2) && (w.2 <=? Z.of_nat n - 1).

(** The indices [startIndex .. endIndex], both ends included. *)
Definition inclusive_range (w : Z * Z) : list Z :=
  from_length (w.2 - w.1 + 1) w.1.

(** The start index in the words of the specification: the smallest [s]
    with [cumulativeHeight(s+1) > scrollTop], minus [bufferCount], clamped
    at 0.  [None] when no item has its bottom edge below [scrollTop]. *)
Definition spec_rawStart (hs : array) (scrollTop : Z) : option nat :=
  find (fun s : nat => gt (getCumulativeHeight hs (Z.of_nat s + 1)) (Num scrollTop))
       (seq 0 (length hs)).

Definition spec_startIndex (hs : array) (bufferCount scrollTop : Z) : option Z :=
  match spec_rawStart hs scrollTop with
  | Some s => Some (Z.max 0 (Z.of_nat s - bufferCount))
  | None => None
  end.

(** Sample props: [n] items, used to evaluate the component. *)
Definition sample_items (n : nat) : list Item :=
  (fun i : nat => mkItem ("item-" +:+ pretty i) "row") <$> seq 0 n.

Definition sample_props (n : nat) (containerHeight estimate buffer : Z)
    : VirtualListProps :=
  mkProps (sample_items n) containerHeight estimate buffer.

(** ** DynamicItem: measuring a mounted cell

    [ref={(el) => { if (el) { updateH(el.offsetHeight); setIsMouted(true); } }}]
    with [updateH={(h) => updateH(idx, h)}].  The element is given by its
    [offsetHeight]; [None] is the [null] that React passes on detaching.  The
    pair is the list's state and the cell's own [isMouted]. *)
Definition refCallback (idx : Z) (el : option Z) (s : State * bool) : State * bool :=
  match el with
  | Some offsetHeight => (updateH idx offsetHeight s.1, true)
  | None => s
  end.

(** [visibility: isMouted ? "visible" : "hidden"] *)
Definition visibility (isMouted : bool) : string :=
  if isMouted then "visible" else "hidden".

(** The life of one cell: a fresh [isMouted = false] and a sequence of
    invocations of its ref callback. *)
Definition cellLife (idx : Z) (els : list (option Z)) (st : State) : State * bool :=
  foldl (fun s el => refCallback idx el s) (st, false) els.

(** One commit of the list: every rendered cell, in render order, reports
    the height the layout gave it. *)
Definition measureCells (offsetHeight : Z -> Z) (st : State) : State :=
  foldl (fun s idx => updateH idx (offsetHeight idx) s) st (renderList st).

(** Sum of the [k] heights from index [s] on. *)
Definition span (hs : array) (s k : nat) : Z := total (take k (drop s hs)).

(** ** App

    [<VirtualList data={data} containerHeight={500} estimatedItemHeight={50} />]
    over 100000 items with ids [item-${i}]; the contents are random and left
    open.  [bufferCount] is not passed and takes its default, 5. *)
Definition VirtualList_props (data : list Item) (containerHeight estimatedItemHeight : Z)
    (bufferCount : option Z) : VirtualListProps :=
  mkProps data containerHeight estimatedItemHeight (default 5 bufferCount).

Definition App_data (n : nat) (content : nat -> string) : list Item :=
  (fun i : nat => mkItem ("item-" +:+ pretty i) (content i)) <$> seq 0 n.

Definition App_props (content : nat -> string) : VirtualListProps :=
  VirtualList_props (App_data (Z.to_nat 100000) content) 500 50 None.

(** ** The counter page

    The component [Index]: the counter comes from the store (its reducer is
    not part of these files), the page keeps the history [ids] of the values
    it has shown. *)
Module Index.

Record Page : Type := mkPage { counter : Z; ids : list Z }.

(** [const actionName = type === 'plus' ? 'increment' : 'decrement'] *)
Definition clickFunc (type : string) : string :=
  if String.eqb type "plus" then "increment" else "decrement".

(** [color: counter % 2 === 0 ? 'blue' : '#333']; [%] is the remainder whose
    sign follows the dividend. *)
Definition countColor (counter : Z) : string :=
  if Z.rem counter 2 =? 0 then "blue" else "#333".

(** First render and its effect: [useState([0])], then
    [setIds(prev => prev.concat(counter))]. *)
Definition mountPage (counter : Z) : Page := mkPage counter ([0] ++ [counter]).

(** The store now holds [c]: the effect depends on [counter] and runs again
    when the value has changed. *)
Definition counterChanged (st : Page) (c : Z) : Page :=
  if c =? counter st then st else mkPage c (ids st ++ [c]).

Definition pageLife (c0 : Z) (cs : list Z) : Page :=
  foldl counterChanged (mountPage c0) cs.

(** The changes in a sequence of counter values: those that differ from the
    value before them, the first being compared with [cur]. *)
Fixpoint changes (cur : Z) (cs : list Z) : list Z :=
  match cs with
  | [] => []
  | c :: cs' => if c =? cur then changes cur cs' else c :: changes c cs'
  end.

End Index.

(** * Properties *)

(** ** Arrays *)

Lemma get_lookup_Some (a : array) (i : nat) (c : option Z) :
  a !! i = Some c -> get a i = c.
Proof. intros H. unfold get. rewrite H. reflexivity. Qed.

Lemma get_ge (a : array) (i : nat) : (length a <= i)%nat -> get a i = None.
Proof.
  intros H. unfold get. rewrite (lookup_ge_None_2 a i H). reflexivity.
Qed.

Lemma length_set_lt (a : array) (i : nat) (v : Z) :
  (i < length a)%nat -> length (set a i v) = length a.
Proof.
  intros H. unfold set. destruct (decide (i < length a)%nat) as [_|n].
  - apply length_insert.
  - contradiction.
Qed.

Lemma lookup_set_eq (a : array) (i : nat) (v : Z) :
  set a i v !! i = Some (Some v).
Proof.
  unfold set. destruct (decide (i < length a)%nat) as [Hlt|Hge].
  - apply list_lookup_insert_eq. exact Hlt.
  - rewrite lookup_app_r by lia.
    rewrite lookup_app_r by (rewrite length_replicate; lia).
    rewrite length_replicate.
    replace (i - length a - (i - length a))%nat with 0%nat by lia.
    reflexivity.
Qed.

Lemma lookup_set_ne (a : array) (i j : nat) (v : Z) :
  (i < length a)%nat -> j <> i -> set a i v !! j = a !! j.
Proof.
  intros Hlt Hne. unfold set.
  destruct (decide (i < length a)%nat) as [_|n]; [|contradiction].
  apply list_lookup_insert_ne. congruence.
Qed.

Lemma all_heights_set (ok : Z -> bool) (a : array) (i : nat) (v : Z) :
  (i < length a)%nat -> ok v = true ->
  all_heights ok a = true -> all_heights ok (set a i v) = true.
Proof.
  intros Hlt Hv. unfold all_heights, set.
  destruct (decide (i < length a)%nat) as [_|n]; [|contradiction].
  rewrite !forallb_forall. intros Ha c Hc.
  apply list_elem_of_In in Hc.
  apply list_elem_of_lookup in Hc as [j Hj].
  destruct (decide (j = i)) as [->|Hne].
  - rewrite list_lookup_insert_eq in Hj by exact Hlt.
    injection Hj as <-. exact Hv.
  - rewrite list_lookup_insert_ne in Hj by congruence.
    apply Ha. apply list_elem_of_In. apply list_elem_of_lookup. eauto.
Qed.

Lemma all_heights_filled (ok : Z -> bool) (n : nat) (v : Z) :
  ok v = true -> all_heights ok (filled n v) = true.
Proof.
  intros Hv. unfold all_heights, filled.
  induction n as [|n IH]; simpl; [reflexivity|].
  rewrite Hv, IH. reflexivity.
Qed.

Lemma all_heights_lookup (ok : Z -> bool) (a : array) (i : nat) :
  all_heights ok a = true -> (i < length a)%nat ->
  exists z, a !! i = Some (Some z) /\ ok z = true.
Proof.
  unfold all_heights. rewrite forallb_forall. intros Ha Hlt.
  destruct (lookup_lt_is_Some_2 a i Hlt) as [c Hc].
  assert (Hin : In c a).
  { apply list_elem_of_In. apply list_elem_of_lookup. eauto. }
  specialize (Ha c Hin). destruct c as [z|]; [|discriminate].
  exists z. auto.
Qed.

Lemma all_heights_weaken (ok ok' : Z -> bool) (a : array) :
  (forall z, ok z = true -> ok' z = true) ->
  all_heights ok a = true -> all_heights ok' a = true.
Proof.
  intros Himp. unfold all_heights. rewrite !forallb_forall.
  intros Ha c Hc. specialize (Ha c Hc).
  destruct c as [z|]; [auto|discriminate].
Qed.

(** ** Prefix sums *)

Lemma total_app (a b : array) : total (a ++ b) = total a + total b.
Proof. induction a as [|c a IH]; simpl; lia. Qed.

Lemma total_nonneg (a : array) : nonneg_store a = true -> 0 <= total a.
Proof.
  unfold nonneg_store, all_heights.
  induction a as [|c a IH]; simpl; [lia|].
  intros H. apply andb_prop in H as [Hc Ha].
  destruct c as [z|]; [|discriminate]. simpl.
  apply Z.leb_le in Hc. specialize (IH Ha). lia.
Qed.

Lemma all_heights_drop (ok : Z -> bool) (a : array) (n : nat) :
  all_heights ok a = true -> all_heights ok (drop n a) = true.
Proof.
  unfold all_heights. revert a.
  induction n as [|n IH]; intros [|c a]; simpl; try tauto.
  intros H. apply andb_prop in H as [_ Ha]. apply IH, Ha.
Qed.

Lemma all_heights_take (ok : Z -> bool) (a : array) (n : nat) :
  all_heights ok a = true -> all_heights ok (take n a) = true.
Proof.
  unfold all_heights. revert a.
  induction n as [|n IH]; intros [|c a]; simpl; try tauto.
  intros H. apply andb_prop in H as [Hc Ha]. rewrite Hc. apply IH, Ha.
Qed.

Lemma total_take_mono (a : array) (j k : nat) :
  nonneg_store a = true -> (j <= k)%nat ->
  total (take j a) <= total (take k a).
Proof.
  intros Ha Hjk.
  replace k with (j + (k - j))%nat by lia.
  rewrite <- take_take_drop, total_app.
  assert (0 <= total (take (k - j) (drop j a))); [|lia].
  apply total_nonneg. apply all_heights_take, all_heights_drop, Ha.
Qed.

(** With numbers in every cell the loop of [getCumulativeHeight] computes
    an exact partial sum. *)
Lemma cumulative_loop_sum (ok : Z -> bool) (hs : array) :
  all_heights ok hs = true ->
  forall (n : nat) (a : Z) (idx : nat),
    (idx + n <= length hs)%nat ->
    cumulative_loop hs n (Num a) idx = Num (a + total (take n (drop idx hs))).
Proof.
  intros Hok. induction n as [|n IH]; intros a idx Hlen; simpl.
  - f_equal. lia.
  - destruct (all_heights_lookup ok hs idx Hok) as (z & Hz & _); [lia|].
    rewrite (get_lookup_Some _ _ _ Hz). simpl.
    rewrite IH by lia.
    rewrite (drop_S _ _ _ Hz). simpl. f_equal. lia.
Qed.

Lemma getCumulativeHeight_sum (ok : Z -> bool) (hs : array) (k : Z) :
  all_heights ok hs = true -> k <= Z.of_nat (length hs) ->
  getCumulativeHeight hs k = Num (total (take (Z.to_nat k) hs)).
Proof.
  intros Hok Hk. unfold getCumulativeHeight.
  rewrite (cumulative_loop_sum ok hs Hok) by lia.
  rewrite drop_0. reflexivity.
Qed.

Lemma getCumulativeHeight_0 (hs : array) : getCumulativeHeight hs 0 = Num 0.
Proof. reflexivity. Qed.

(** ** The loop of findStartIndex *)

Lemma start_loop_O (hs : array) (pos : Z) (sum : number) (idx : nat) :
  start_loop hs pos 0 sum idx =
  if lt sum (Num pos) then None else Some (sum, idx).
Proof. reflexivity. Qed.

Lemma start_loop_S (hs : array) (pos : Z) (fuel : nat) (sum : number) (idx : nat) :
  start_loop hs pos (S fuel) sum idx =
  if lt sum (Num pos)
  then start_loop hs pos fuel (add sum (to_number (get hs idx))) (S idx)
  else Some (sum, idx).
Proof. reflexivity. Qed.

Lemma start_loop_NaN (hs : array) (pos : Z) (fuel idx : nat) :
  start_loop hs pos fuel NaN idx = Some (NaN, idx).
Proof. destruct fuel; reflexivity. Qed.

Lemma add_undefined (sum : number) : add sum (to_number None) = NaN.
Proof. destruct sum; reflexivity. Qed.

(** Whatever the store holds and wherever the loop starts, it stops: each
    iteration moves [idx] one cell on, and the first [undefined] it reads
    turns [sum] into [NaN], for which the test [sum < scrollPosition] is
    false. *)
Lemma start_loop_terminates (hs : array) (pos : Z) :
  forall (fuel : nat) (sum : number) (idx : nat),
    (length hs - idx < fuel)%nat ->
    exists sum' idx',
      start_loop hs pos fuel sum idx = Some (sum', idx') /\
      (idx <= idx')%nat /\ (idx' <= S (Nat.max idx (length hs)))%nat.
Proof.
  induction fuel as [|fuel IH]; intros sum idx Hfuel; [lia|].
  simpl. destruct (lt sum (Num pos)) eqn:Htest.
  - destruct (hs !! idx) as [c|] eqn:Hc.
    + pose proof (lookup_lt_Some _ _ _ Hc) as Hlt.
      destruct (IH (add sum (to_number (get hs idx))) (S idx)) as (s' & i' & Hrun & Hlo & Hhi);
        [lia|].
      exists s', i'. split; [exact Hrun|]. lia.
    + unfold get. rewrite Hc. simpl mjoin. rewrite add_undefined, start_loop_NaN.
      exists NaN, (S idx). split; [reflexivity|]. lia.
  - exists sum, idx. split; [reflexivity|]. lia.
Qed.

Lemma start_loop_total (hs : array) (pos : Z) :
  exists sum idx,
    start_loop hs pos (start_fuel hs) (Num 0) 0 = Some (sum, idx) /\
    (idx <= S (length hs))%nat.
Proof.
  destruct (start_loop_terminates hs pos (start_fuel hs) (Num 0) 0)
    as (s & i & Hrun & _ & Hhi); [unfold start_fuel; lia|].
  exists s, i. split; [exact Hrun|]. lia.
Qed.

(** More fuel does not change a result. *)
Lemma start_loop_fuel_mono (hs : array) (pos : Z) :
  forall (fuel fuel' : nat) (sum : number) (idx : nat) r,
    start_loop hs pos fuel sum idx = Some r -> (fuel <= fuel')%nat ->
    start_loop hs pos fuel' sum idx = Some r.
Proof.
  induction fuel as [|fuel IH]; intros fuel' sum idx r Hrun Hle.
  - simpl in Hrun. destruct fuel'; simpl;
      destruct (lt sum (Num pos)); congruence.
  - destruct fuel' as [|fuel']; [lia|]. simpl in *.
    destruct (lt sum (Num pos)); [|exact Hrun].
    apply IH; [exact Hrun|lia].
Qed.

(** A scroll position beyond the running sum plus everything still to be
    read: the loop reads every remaining cell and then one past the end. *)
Lemma start_loop_overrun (hs : array) (pos : Z) :
  nonneg_store hs = true ->
  forall (n idx : nat) (a : Z),
    n = (length hs - idx)%nat -> (idx <= length hs)%nat ->
    a + total (drop idx hs) < pos ->
    start_loop hs pos (S n) (Num a) idx = Some (NaN, S (length hs)) /\
    start_loop hs pos n (Num a) idx = None.
Proof.
  intros Hnn. induction n as [|n IH]; intros idx a Hn Hidx Hpos.
  - assert (idx = length hs) as -> by lia.
    rewrite drop_all in Hpos. simpl in Hpos.
    assert (Htest : lt (Num a) (Num pos) = true) by (apply Z.ltb_lt; lia).
    split.
    + rewrite start_loop_S, Htest, get_ge, add_undefined by lia.
      apply start_loop_NaN.
    + rewrite start_loop_O, Htest. reflexivity.
  - destruct (all_heights_lookup _ hs idx Hnn) as (z & Hz & Hz0); [lia|].
    apply Z.leb_le in Hz0.
    rewrite (drop_S _ _ _ Hz) in Hpos. simpl in Hpos.
    pose proof (total_nonneg _ (all_heights_drop _ hs (S idx) Hnn)) as Hrest.
    assert (Htest : lt (Num a) (Num pos) = true) by (apply Z.ltb_lt; lia).
    destruct (IH (S idx) (a + z)) as [Hrun Hshort]; [lia|lia|lia|].
    split.
    + rewrite start_loop_S, Htest, (get_lookup_Some _ _ _ Hz). exact Hrun.
    + rewrite start_loop_S, Htest, (get_lookup_Some _ _ _ Hz). exact Hshort.
Qed.

(** What the loop computes on a store of numbers that are not negative,
    for a scroll position within the total height: it stops at the smallest
    index whose prefix sum has reached the scroll position. *)
Lemma start_loop_first_reaching (hs : array) (pos : Z) :
  nonneg_store hs = true ->
  forall (n idx : nat),
    n = (length hs - idx)%nat -> (idx <= length hs)%nat ->
    pos <= total hs ->
    (forall j : nat, (j < idx)%nat -> total (take j hs) < pos) ->
    exists idx' : nat,
      start_loop hs pos (S n) (Num (total (take idx hs))) idx
        = Some (Num (total (take idx' hs)), idx') /\
      (idx <= idx' <= length hs)%nat /\
      pos <= total (take idx' hs) /\
      (forall j : nat, (j < idx')%nat -> total (take j hs) < pos).
Proof.
  intros Hnn. induction n as [|n IH]; intros idx Hn Hidx Hpos Hbelow;
    rewrite start_loop_S;
    destruct (lt (Num (total (take idx hs))) (Num pos)) eqn:Htest;
    try (exists idx; apply Z.ltb_ge in Htest;
         split; [reflexivity|]; split; [lia|]; split; [exact Htest|exact Hbelow]).
  - apply Z.ltb_lt in Htest. assert (idx = length hs) as -> by lia.
    rewrite firstn_all in Htest. lia.
  - apply Z.ltb_lt in Htest.
    destruct (all_heights_lookup _ hs idx Hnn) as (z & Hz & _); [lia|].
    rewrite (get_lookup_Some _ _ _ Hz).
    assert (Hnext : add (Num (total (take idx hs))) (to_number (Some z))
                    = Num (total (take (S idx) hs))).
    { rewrite (take_S_r _ _ _ Hz), total_app. simpl. f_equal. lia. }
    rewrite Hnext.
    destruct (IH (S idx)) as (idx' & Hrun & Hrange & Hreach & Hmin);
      [lia|lia|exact Hpos| |].
    + intros j Hj. destruct (decide (j = idx)) as [->|Hne]; [exact Htest|].
      apply Hbelow. lia.
    + exists idx'. split; [exact Hrun|]. split; [lia|]. split; assumption.
Qed.

(** On such a store [findStartIndex] is that smallest index, less the
    buffer, clamped at 0. *)
Lemma findStartIndex_first_reaching (hs : array) (b pos : Z) :
  nonneg_store hs = true -> pos <= total hs ->
  exists idx : nat,
    findStartIndex hs b pos = Some (Z.max 0 (Z.of_nat idx - b)) /\
    (idx <= length hs)%nat /\
    getCumulativeHeight hs (Z.of_nat idx) = Num (total (take idx hs)) /\
    pos <= total (take idx hs) /\
    (forall j : nat, (j < idx)%nat -> total (take j hs) < pos).
Proof.
  intros Hnn Hpos.
  destruct (start_loop_first_reaching hs pos Hnn (length hs) 0%nat)
    as (idx & Hrun & Hrange & Hreach & Hmin); [lia|lia|exact Hpos|lia|].
  exists idx. unfold findStartIndex, start_fuel.
  change (Num 0) with (Num (total (take 0 hs))). rewrite Hrun.
  split; [reflexivity|]. split; [lia|]. split; [|auto].
  rewrite (getCumulativeHeight_sum _ _ _ Hnn) by lia.
  rewrite Nat2Z.id. reflexivity.
Qed.

Lemma findStartIndex_total (hs : array) (b pos : Z) :
  exists idx : nat,
    findStartIndex hs b pos = Some (Z.max 0 (Z.of_nat idx - b)) /\
    (idx <= S (length hs))%nat.
Proof.
  destruct (start_loop_total hs pos) as (s & i & Hrun & Hi).
  exists i. unfold findStartIndex. rewrite Hrun. auto.
Qed.

(** ** The loop of findEndIndex *)

Lemma end_loop_S (hs : array) (th : Z) (n : nat) (i : Z) (tot : number) (e : Z) :
  end_loop hs th (S n) i tot e =
  if gt (add tot (to_number (getZ hs i))) (Num th) then i
  else end_loop hs th n (i + 1) (add tot (to_number (getZ hs i))) i.
Proof. reflexivity. Qed.

Lemma end_loop_ge (hs : array) (th : Z) :
  forall (n : nat) (i : Z) (tot : number) (e : Z),
    e <= i -> e <= end_loop hs th n i tot e.
Proof.
  induction n as [|n IH]; intros i tot e Hei; [simpl; lia|].
  rewrite end_loop_S.
  destruct (gt (add tot (to_number (getZ hs i))) (Num th)); [exact Hei|].
  etransitivity; [exact Hei|]. apply IH. lia.
Qed.

Lemma end_loop_le (hs : array) (th : Z) :
  forall (n : nat) (i : Z) (tot : number) (e : Z),
    end_loop hs th n i tot e <= Z.max e (i + Z.of_nat n - 1).
Proof.
  induction n as [|n IH]; intros i tot e; [simpl; lia|].
  rewrite end_loop_S.
  destruct (gt (add tot (to_number (getZ hs i))) (Num th)); [lia|].
  etransitivity; [apply IH|]. lia.
Qed.

Lemma findEndIndex_le (p : VirtualListProps) (hs : array) (s : Z) :
  findEndIndex p hs s <= Z.of_nat (length (data p)) - 1.
Proof. unfold findEndIndex. lia. Qed.

Lemma findEndIndex_ge (p : VirtualListProps) (hs : array) (s : Z) :
  Z.min (Z.of_nat (length (data p)) - 1) (s + bufferCount p) <= findEndIndex p hs s.
Proof.
  unfold findEndIndex.
  pose proof (end_loop_ge hs (containerHeight p + bufferCount p * estimatedItemHeight p)
    (Z.to_nat (Z.of_nat (length (data p)) - s)) s (Num 0) s (Z.le_refl s)).
  lia.
Qed.

(** ** The resolved window and the render list *)

Lemma resolveWindow_total (p : VirtualListProps) (hs : array) (pos : Z) :
  exists (idx : nat) (s e : Z),
    resolveWindow p hs pos = Some (s, e) /\
    s = Z.max 0 (Z.of_nat idx - bufferCount p) /\
    (idx <= S (length hs))%nat /\
    e = findEndIndex p hs s.
Proof.
  destruct (findStartIndex_total hs (bufferCount p) pos) as (idx & Hs & Hidx).
  exists idx, (Z.max 0 (Z.of_nat idx - bufferCount p)),
    (findEndIndex p hs (Z.max 0 (Z.of_nat idx - bufferCount p))).
  unfold resolveWindow. rewrite Hs. auto.
Qed.

Lemma from_length_Forall (len start : Z) :
  Forall (fun x => start <= x < start + len) (from_length len start).
Proof.
  unfold from_length. apply Forall_fmap, Forall_seq.
  intros i Hi. simpl. lia.
Qed.

Lemma from_length_elem (len start x : Z) :
  x ∈ from_length len start <-> start <= x < start + len.
Proof.
  unfold from_length. rewrite list_elem_of_fmap. split.
  - intros (i & -> & Hi). apply elem_of_seq in Hi. lia.
  - intros Hx. exists (Z.to_nat (x - start)). split; [lia|].
    apply elem_of_seq. lia.
Qed.

(** The indices stored by the window effect are indices of [data]: they
    start at a clamped [startIndex >= 0] and stop below
    [endIndex <= data.length - 1]. *)
Lemma windowEffect_Done (p : VirtualListProps) (st : State) :
  exists s e : Z,
    resolveWindow p (itemHeights st) (scrollTop st) = Some (s, e) /\
    windowEffect p st = Done (set_renderList st (from_length (e - s) s)) /\
    Forall (fun i => 0 <= i < Z.of_nat (length (data p)))
           (from_length (e - s) s).
Proof.
  destruct (resolveWindow_total p (itemHeights st) (scrollTop st))
    as (idx & s & e & Hw & Hs & _ & He).
  exists s, e. split; [exact Hw|]. split.
  - unfold windowEffect. rewrite Hw. reflexivity.
  - eapply Forall_impl; [apply from_length_Forall|].
    intros x Hx. simpl in Hx.
    pose proof (findEndIndex_le p (itemHeights st) s). lia.
Qed.

Lemma data_at_in_range (p : VirtualListProps) (i : Z) :
  0 <= i < Z.of_nat (length (data p)) -> exists item, data_at p i = Some item.
Proof.
  intros Hi. unfold data_at.
  destruct (i <? 0) eqn:Hneg; [apply Z.ltb_lt in Hneg; lia|].
  destruct (lookup_lt_is_Some_2 (data p) (Z.to_nat i)) as [item Hitem]; [lia|].
  eauto.
Qed.

Lemma render_cells_Done (p : VirtualListProps) (st : State) (l : list Z) :
  Forall (fun i => 0 <= i < Z.of_nat (length (data p))) l ->
  exists cs, mapM (renderCell p st) l = Done cs /\ cell_idx <$> cs = l.
Proof.
  induction 1 as [|i l Hi _ (cs & Hcs & Hidx)]; simpl.
  - exists []. auto.
  - destruct (data_at_in_range p i Hi) as [item Hitem].
    unfold renderCell at 1. rewrite Hitem. simpl. rewrite Hcs. simpl.
    eexists. split; [reflexivity|]. rewrite fmap_cons, Hidx. reflexivity.
Qed.

(** ** Events *)

(** An event always completes, never touches the spacer height, keeps the
    render list inside [data], and changes the store only through
    [updateH]. *)
Lemma step_Done (p : VirtualListProps) (st : State) (ev : event) :
  exists st',
    step p st ev = Done st' /\
    height st' = height st /\
    itemHeights st' =
      match ev with
      | Scroll _ => itemHeights st
      | Measure idx h => itemHeights (updateH idx h st)
      end /\
    (Forall (fun i => 0 <= i < Z.of_nat (length (data p))) (renderList st) ->
     Forall (fun i => 0 <= i < Z.of_nat (length (data p))) (renderList st')).
Proof.
  destruct ev as [v|idx h]; simpl.
  - unfold handleScroll. destruct (v =? scrollTop st).
    + exists st. auto.
    + destruct (windowEffect_Done p (set_scrollTop st v)) as (s & e & _ & Hrun & Hin).
      eexists. split; [exact Hrun|]. simpl. auto.
  - eexists. split; [reflexivity|].
    unfold updateH. destruct (idx <? 0); simpl; auto.
Qed.

Lemma run_Done (p : VirtualListProps) (evs : list event) :
  forall st : State,
    exists st',
      run p evs st = Done st' /\
      height st' = height st /\
      (Forall (fun i => 0 <= i < Z.of_nat (length (data p))) (renderList st) ->
       Forall (fun i => 0 <= i < Z.of_nat (length (data p))) (renderList st')).
Proof.
  induction evs as [|ev evs IH]; intros st; simpl.
  - exists st. auto.
  - destruct (step_Done p st ev) as (st1 & Hstep & Hh1 & _ & Hr1).
    destruct (IH st1) as (st2 & Hrun & Hh2 & Hr2).
    exists st2. rewrite Hstep. simpl. split; [exact Hrun|].
    split; [congruence|auto].
Qed.

Lemma mount_Done (p : VirtualListProps) :
  exists s e : Z,
    resolveWindow p (filled (length (data p)) (estimatedItemHeight p)) 0 = Some (s, e) /\
    mount p =
      Done (heightEffect p
              (set_renderList (initEffect p initial) (from_length (e - s) s))) /\
    Forall (fun i => 0 <= i < Z.of_nat (length (data p))) (from_length (e - s) s).
Proof.
  destruct (windowEffect_Done p (initEffect p initial)) as (s & e & Hw & Hrun & Hin).
  exists s, e. split; [exact Hw|]. split; [|exact Hin].
  unfold mount. rewrite Hrun. reflexivity.
Qed.

(** ** The store under writes *)

Lemma updateH_store (ok : Z -> bool) (idx h : Z) (st : State) :
  0 <= idx < Z.of_nat (length (itemHeights st)) -> ok h = true ->
  all_heights ok (itemHeights st) = true ->
  length (itemHeights (updateH idx h st)) = length (itemHeights st) /\
  all_heights ok (itemHeights (updateH idx h st)) = true.
Proof.
  intros Hidx Hh Hst. unfold updateH.
  destruct (idx <? 0) eqn:Hneg; [apply Z.ltb_lt in Hneg; lia|]. simpl.
  split.
  - apply length_set_lt. lia.
  - apply all_heights_set; [lia|exact Hh|exact Hst].
Qed.

Lemma run_store (ok : Z -> bool) (p : VirtualListProps) (evs : list event) :
  forall st : State,
    length (itemHeights st) = length (data p) ->
    all_heights ok (itemHeights st) = true ->
    forallb (event_writes ok p) evs = true ->
    exists st',
      run p evs st = Done st' /\
      length (itemHeights st') = length (data p) /\
      all_heights ok (itemHeights st') = true.
Proof.
  induction evs as [|ev evs IH]; intros st Hlen Hst Hevs; simpl.
  - exists st. auto.
  - simpl in Hevs. apply andb_prop in Hevs as [Hev Hevs].
    destruct (step_Done p st ev) as (st1 & Hstep & _ & Hhs & _).
    rewrite Hstep. simpl. apply IH; [| |exact Hevs].
    + rewrite Hhs. destruct ev as [v|idx h]; [exact Hlen|].
      simpl in Hev. apply andb_prop in Hev as [Hev Hh].
      apply andb_prop in Hev as [Hlo Hhi].
      apply Z.leb_le in Hlo. apply Z.ltb_lt in Hhi.
      rewrite <- Hlen. apply (updateH_store ok); [lia|exact Hh|exact Hst].
    + rewrite Hhs. destruct ev as [v|idx h]; [exact Hst|].
      simpl in Hev. apply andb_prop in Hev as [Hev Hh].
      apply andb_prop in Hev as [Hlo Hhi].
      apply Z.leb_le in Hlo. apply Z.ltb_lt in Hhi.
      apply (updateH_store ok); [lia|exact Hh|exact Hst].
Qed.

Lemma lifetime_store (ok : Z -> bool) (p : VirtualListProps) (evs : list event) :
  ok (estimatedItemHeight p) = true ->
  forallb (event_writes ok p) evs = true ->
  exists st,
    lifetime p evs = Done st /\
    length (itemHeights st) = length (data p) /\
    all_heights ok (itemHeights st) = true.
Proof.
  intros Hest Hevs. unfold lifetime.
  destruct (mount_Done p) as (s & e & _ & Hmount & _).
  rewrite Hmount. simpl. apply run_store; [| |exact Hevs]; simpl.
  - apply length_replicate.
  - apply all_heights_filled, Hest.
Qed.

(** ** Where the resolved window is sound *)

(** The resolved window never starts below 0 and never ends above the last
    index; with a buffer of at least two items it is a valid window. *)
Lemma window_bounds (p : VirtualListProps) (hs : array) (pos s e : Z) :
  resolveWindow p hs pos = Some (s, e) ->
  0 <= s /\ e <= Z.of_nat (length (data p)) - 1.
Proof.
  intros Hw.
  destruct (resolveWindow_total p hs pos) as (idx & s' & e' & Hw' & Hs & _ & He).
  rewrite Hw in Hw'. injection Hw' as -> ->. split; [lia|].
  rewrite He. apply findEndIndex_le.
Qed.

Lemma window_valid_with_buffer (p : VirtualListProps) (hs : array) (pos s e : Z) :
  (0 < length (data p))%nat -> length hs = length (data p) ->
  2 <= bufferCount p ->
  resolveWindow p hs pos = Some (s, e) ->
  valid_window (length (data p)) (s, e) = true.
Proof.
  intros HN Hlen Hb Hw.
  destruct (resolveWindow_total p hs pos) as (idx & s' & e' & Hw' & Hs & Hidx & He).
  rewrite Hw in Hw'. injection Hw' as -> ->.
  pose proof (findEndIndex_le p hs s') as Hhi.
  pose proof (findEndIndex_ge p hs s') as Hlo.
  unfold valid_window. simpl.
  rewrite !andb_true_iff, !Z.leb_le. rewrite <- He in *. lia.
Qed.

(** The index [endIndex] itself is never among the indices handed to the
    render function. *)
Lemma endIndex_not_rendered (p : VirtualListProps) (st : State) :
  exists (s e : Z) (st' : State),
    resolveWindow p (itemHeights st) (scrollTop st) = Some (s, e) /\
    windowEffect p st = Done st' /\
    e ∉ renderList st'.
Proof.
  destruct (windowEffect_Done p st) as (s & e & Hw & Hrun & _).
  exists s, e. eexists. split; [exact Hw|]. split; [exact Hrun|].
  simpl. rewrite from_length_elem. lia.
Qed.

(** A scroll offset beyond the sum of all heights: the start loop runs off
    the end of the store, and the window ends at the last index. *)
Lemma window_beyond_total (p : VirtualListProps) (hs : array) (pos : Z) :
  nonneg_store hs = true -> length hs = length (data p) ->
  total hs < pos ->
  resolveWindow p hs pos =
    Some (Z.max 0 (Z.of_nat (length (data p)) + 1 - bufferCount p),
          Z.of_nat (length (data p)) - 1).
Proof.
  intros Hnn Hlen Hpos.
  destruct (start_loop_overrun hs pos Hnn (length hs) 0%nat 0) as [Hrun _];
    [lia|lia|rewrite drop_0; lia|].
  unfold resolveWindow, findStartIndex, start_fuel. rewrite Hrun, Hlen.
  replace (Z.of_nat (S (length (data p)))) with (Z.of_nat (length (data p)) + 1) by lia.
  f_equal. f_equal.
  pose proof (findEndIndex_le p hs
    (Z.max 0 (Z.of_nat (length (data p)) + 1 - bufferCount p))).
  pose proof (findEndIndex_ge p hs
    (Z.max 0 (Z.of_nat (length (data p)) + 1 - bufferCount p))).
  lia.
Qed.

(** * The claims *)

(** C1, as amended.  The spacer height is set by the height effect when the
    list mounts and no later event updates it: after any sequence of scroll
    events and [updateH] writes the component is still running and its
    spacer height is the value computed at mount. *)
Theorem spacer_height_fixed_at_mount (p : VirtualListProps) (evs : list event) :
  exists st0 st,
    mount p = Done st0 /\
    lifetime p evs = Done st /\
    height st = height st0.
Proof.
  destruct (mount_Done p) as (s & e & _ & Hmount & _).
  destruct (run_Done p evs
    (heightEffect p (set_renderList (initEffect p initial) (from_length (e - s) s))))
    as (st & Hrun & Hh & _).
  eexists. exists st. split; [exact Hmount|].
  unfold lifetime. rewrite Hmount. simpl. split; [exact Hrun|exact Hh].
Qed.

(** C1, counterexample.  Three items estimated at 50; cell 0 reports a
    measured height of 80.  The store then sums to 180 while the spacer is
    still 100. *)
Lemma spacer_height_not_total :
  exists st,
    lifetime (sample_props 3 100 50 0) [Measure 0 80] = Done st /\
    height st = Num 100 /\
    getCumulativeHeight (itemHeights st) 3 = Num 180 /\
    height st <> getCumulativeHeight (itemHeights st) 3.
Proof.
  eexists. split; [vm_compute; reflexivity|].
  repeat split; try reflexivity. vm_compute. discriminate.
Qed.

(** C2.  Three items of height 50, no buffer, scrolled by 10: item 0 still
    crosses the scroll offset, and the specification's start index is 0, but
    [findStartIndex] answers 1. *)
Theorem findStartIndex_skips_crossing_item :
  findStartIndex (filled 3 50) 0 10 = Some 1 /\
  spec_startIndex (filled 3 50) 0 10 = Some 0.
Proof. split; vm_compute; reflexivity. Qed.

(** C3.  Three items of height 50 in a container of 100, no buffer, at
    scroll offset 0: the window is [{0, 2}], and the cells rendered are
    those of indices 0 and 1 only. *)
Theorem render_omits_endIndex :
  resolveWindow (sample_props 3 100 50 0) (filled 3 50) 0 = Some (0, 2) /\
  inclusive_range (0, 2) = [0; 1; 2] /\
  exists st v,
    mount (sample_props 3 100 50 0) = Done st /\
    render (sample_props 3 100 50 0) st = Done v /\
    rendered_indices v = [0; 1].
Proof.
  split; [vm_compute; reflexivity|]. split; [vm_compute; reflexivity|].
  eexists. eexists. split; [vm_compute; reflexivity|].
  split; vm_compute; reflexivity.
Qed.

(** C4.  Three items of height 50, no buffer, scrolled to 120 (inside the
    last item): the resolved window is [{3, 2}], whose start is larger than
    its end and is not an index of the list. *)
Theorem window_invalid_inside_last_item :
  resolveWindow (sample_props 3 100 50 0) (filled 3 50) 120 = Some (3, 2) /\
  valid_window 3 (3, 2) = false.
Proof. split; vm_compute; reflexivity. Qed.

(** C5, as amended.  [updateH] stores the height it is given; nothing is
    rejected or clamped.  So every entry of the store is positive after any
    sequence of events provided the estimate is positive and every height
    written (at an index of the collection) is positive. *)
Theorem heights_positive_when_writes_positive
    (p : VirtualListProps) (evs : list event) :
  0 < estimatedItemHeight p ->
  forallb (event_writes (fun h => 0 <? h) p) evs = true ->
  exists st,
    lifetime p evs = Done st /\ positive_store (itemHeights st) = true.
Proof.
  intros Hest Hevs.
  destruct (lifetime_store (fun h => 0 <? h) p evs) as (st & Hrun & _ & Hst).
  - apply Z.ltb_lt, Hest.
  - exact Hevs.
  - exists st. split; [exact Hrun|exact Hst].
Qed.

Lemma heights_positive_when_writes_positive_witness :
  exists st,
    lifetime (sample_props 3 100 50 0) [Measure 0 80; Scroll 10; Measure 1 20]
      = Done st /\
    positive_store (itemHeights st) = true.
Proof.
  apply (heights_positive_when_writes_positive (sample_props 3 100 50 0)
           [Measure 0 80; Scroll 10; Measure 1 20]).
  - simpl. lia.
  - reflexivity.
Defined.

(** C5, counterexample.  A measured height of 0, or of -5, is written into
    the store as it is: the entry is neither left at its estimate nor raised
    to a positive minimum. *)
Lemma nonpositive_height_is_stored :
  (exists st,
     lifetime (sample_props 3 100 50 0) [Measure 0 0] = Done st /\
     itemHeights st = [Some 0; Some 50; Some 50] /\
     positive_store (itemHeights st) = false) /\
  (exists st,
     lifetime (sample_props 3 100 50 0) [Measure 0 (-5)] = Done st /\
     itemHeights st = [Some (-5); Some 50; Some 50] /\
     positive_store (itemHeights st) = false).
Proof.
  split; eexists; (split; [vm_compute; reflexivity|]); split; reflexivity.
Qed.

(** C6, as amended.  [getCumulativeHeight(0)] is 0, and
    [getCumulativeHeight] is non-decreasing on indices up to the number of
    items, after any sequence of events, provided the estimate is not
    negative and every height written (at an index of the collection) is
    not negative. *)
Theorem getCumulativeHeight_monotone
    (p : VirtualListProps) (evs : list event) (j k : Z) :
  0 <= estimatedItemHeight p ->
  forallb (event_writes (fun h => 0 <=? h) p) evs = true ->
  j <= k <= Z.of_nat (length (data p)) ->
  exists st,
    lifetime p evs = Done st /\
    getCumulativeHeight (itemHeights st) 0 = Num 0 /\
    le (getCumulativeHeight (itemHeights st) j)
       (getCumulativeHeight (itemHeights st) k) = true.
Proof.
  intros Hest Hevs Hjk.
  destruct (lifetime_store (fun h => 0 <=? h) p evs) as (st & Hrun & Hlen & Hst).
  - apply Z.leb_le, Hest.
  - exact Hevs.
  - exists st. split; [exact Hrun|]. split; [reflexivity|].
    rewrite !(getCumulativeHeight_sum _ _ _ Hst) by lia.
    simpl. apply Z.leb_le, total_take_mono; [exact Hst|lia].
Qed.

Lemma getCumulativeHeight_monotone_witness :
  exists st,
    lifetime (sample_props 3 100 50 0) [Measure 0 80; Scroll 10] = Done st /\
    getCumulativeHeight (itemHeights st) 0 = Num 0 /\
    le (getCumulativeHeight (itemHeights st) 1)
       (getCumulativeHeight (itemHeights st) 3) = true.
Proof.
  apply (getCumulativeHeight_monotone (sample_props 3 100 50 0)
           [Measure 0 80; Scroll 10] 1 3).
  - simpl. lia.
  - reflexivity.
  - simpl. lia.
Defined.

(** C6, counterexample.  A negative height written by [updateH] makes the
    prefix sums go down (50, then -30); and an index beyond the number of
    items reads past the end of the store, so that the sum is [NaN], which
    is not above any number. *)
Lemma getCumulativeHeight_not_monotone :
  (exists st,
     lifetime (sample_props 3 100 50 0) [Measure 1 (-80)] = Done st /\
     getCumulativeHeight (itemHeights st) 1 = Num 50 /\
     getCumulativeHeight (itemHeights st) 2 = Num (-30) /\
     le (getCumulativeHeight (itemHeights st) 1)
        (getCumulativeHeight (itemHeights st) 2) = false) /\
  (exists st,
     mount (sample_props 3 100 50 0) = Done st /\
     getCumulativeHeight (itemHeights st) 3 = Num 150 /\
     getCumulativeHeight (itemHeights st) 4 = NaN /\
     le (getCumulativeHeight (itemHeights st) 3)
        (getCumulativeHeight (itemHeights st) 4) = false).
Proof.
  split; eexists; (split; [vm_compute; reflexivity|]); repeat split; reflexivity.
Qed.

(** C7.  Three items of height 50 (150 in total), no buffer, scrolled to
    200: the window still ends at the last index 2, but it starts at 4,
    beyond the end of the list. *)
Theorem window_invalid_beyond_total :
  total (filled 3 50) = 150 /\
  resolveWindow (sample_props 3 100 50 0) (filled 3 50) 200 = Some (4, 2) /\
  valid_window 3 (4, 2) = false.
Proof. repeat split; vm_compute; reflexivity. Qed.

(** C8, as amended.  The component validates none of its parameters: for
    every integer [containerHeight], [estimatedItemHeight] and
    [bufferCount], positive or not, mounting completes, the store is seeded
    with the estimate as given, and rendering the resolved window throws
    nothing. *)
Theorem mount_accepts_all_parameters (p : VirtualListProps) :
  exists st v,
    mount p = Done st /\
    itemHeights st = filled (length (data p)) (estimatedItemHeight p) /\
    render p st = Done v /\
    spacer v = height st /\
    rendered_indices v = renderList st.
Proof.
  destruct (mount_Done p) as (s & e & _ & Hmount & Hin).
  eexists. rewrite Hmount.
  destruct (render_cells_Done p
    (heightEffect p (set_renderList (initEffect p initial) (from_length (e - s) s)))
    (from_length (e - s) s) Hin) as (cs & Hcs & Hidx).
  exists (mkView
    (height (heightEffect p (set_renderList (initEffect p initial) (from_length (e - s) s))))
    cs).
  split; [reflexivity|]. split; [reflexivity|].
  unfold render. simpl renderList. rewrite Hcs. simpl.
  split; [reflexivity|]. split; [reflexivity|exact Hidx].
Qed.

(** C8, counterexample.  A container of height 0, an estimate of 0 and a
    buffer of -1 are each accepted: the list mounts, with an empty window in
    the first and third cases. *)
Lemma invalid_parameters_not_rejected :
  (exists st, mount (sample_props 3 0 50 0) = Done st /\ renderList st = []) /\
  (exists st, mount (sample_props 3 100 0 0) = Done st /\
              itemHeights st = [Some 0; Some 0; Some 0] /\ height st = Num 0) /\
  (exists st, mount (sample_props 3 100 50 (-1)) = Done st /\ renderList st = []).
Proof.
  repeat split; eexists; (split; [vm_compute; reflexivity|]); repeat split; reflexivity.
Qed.

(** C9.  On a store of [N] positive heights and for a scroll position that
    is not negative, the loop of [findStartIndex] stops within [N + 1]
    iterations, so that [findStartIndex] returns.  When the scroll position
    exceeds the sum of all heights the loop needs all [N + 1] iterations ([N]
    are not enough) and leaves with [sum] equal to [NaN], read from past
    the last index. *)
Theorem findStartIndex_terminates (hs : array) (b pos : Z) :
  0 <= pos -> positive_store hs = true ->
  exists sum idx,
    start_loop hs pos (length hs + 1) (Num 0) 0 = Some (sum, idx) /\
    (idx <= length hs + 1)%nat /\
    findStartIndex hs b pos = Some (Z.max 0 (Z.of_nat idx - b)) /\
    (total hs < pos ->
     sum = NaN /\ idx = (length hs + 1)%nat /\
     start_loop hs pos (length hs) (Num 0) 0 = None).
Proof.
  intros _ Hpos.
  assert (Hnn : nonneg_store hs = true).
  { revert Hpos. apply all_heights_weaken. intros z Hz.
    apply Z.ltb_lt in Hz. apply Z.leb_le. lia. }
  destruct (start_loop_total hs pos) as (sum & idx & Hrun & Hidx).
  unfold start_fuel in Hrun.
  exists sum, idx. replace (length hs + 1)%nat with (S (length hs)) by lia.
  split; [exact Hrun|]. split; [exact Hidx|]. split.
  - unfold findStartIndex, start_fuel. rewrite Hrun. reflexivity.
  - intros Hbeyond.
    destruct (start_loop_overrun hs pos Hnn (length hs) 0%nat 0) as [Hfull Hshort];
      [lia|lia|rewrite drop_0; lia|].
    rewrite Hfull in Hrun. injection Hrun as <- <-. auto.
Qed.

Lemma findStartIndex_terminates_witness :
  exists sum idx,
    start_loop (filled 3 50) 200 (length (filled 3 50) + 1) (Num 0) 0
      = Some (sum, idx) /\
    (idx <= length (filled 3 50) + 1)%nat /\
    findStartIndex (filled 3 50) 0 200 = Some (Z.max 0 (Z.of_nat idx - 0)) /\
    (total (filled 3 50) < 200 ->
     sum = NaN /\ idx = (length (filled 3 50) + 1)%nat /\
     start_loop (filled 3 50) 200 (length (filled 3 50)) (Num 0) 0 = None).
Proof.
  apply (findStartIndex_terminates (filled 3 50) 0 200).
  - lia.
  - reflexivity.
Defined.

(** C10.  For an index [idx] inside the store and any value [h],
    [updateH(idx, h)] puts [h] in entry [idx] and changes nothing else:
    the length of the store and every other entry are as before, and so are
    [scrollTop], [renderList] and the spacer height. *)
Theorem updateH_frame (st : State) (idx h : Z) :
  0 <= idx < Z.of_nat (length (itemHeights st)) ->
  length (itemHeights (updateH idx h st)) = length (itemHeights st) /\
  itemHeights (updateH idx h st) !! Z.to_nat idx = Some (Some h) /\
  (forall j : nat,
     j <> Z.to_nat idx ->
     itemHeights (updateH idx h st) !! j = itemHeights st !! j) /\
  scrollTop (updateH idx h st) = scrollTop st /\
  renderList (updateH idx h st) = renderList st /\
  height (updateH idx h st) = height st.
Proof.
  intros Hidx. unfold updateH.
  destruct (idx <? 0) eqn:Hneg; [apply Z.ltb_lt in Hneg; lia|]. simpl.
  split; [apply length_set_lt; lia|].
  split; [apply lookup_set_eq|].
  split; [|auto].
  intros j Hj. apply lookup_set_ne; [lia|exact Hj].
Qed.

Lemma updateH_frame_witness :
  length (itemHeights (updateH 1 80 (mkState 0 (filled 3 50) (Num 100) [0; 1]))) = 3%nat /\
  itemHeights (updateH 1 80 (mkState 0 (filled 3 50) (Num 100) [0; 1])) !! 1%nat
    = Some (Some 80) /\
  (forall j : nat,
     j <> 1%nat ->
     itemHeights (updateH 1 80 (mkState 0 (filled 3 50) (Num 100) [0; 1])) !! j
       = filled 3 50 !! j) /\
  scrollTop (updateH 1 80 (mkState 0 (filled 3 50) (Num 100) [0; 1])) = 0 /\
  renderList (updateH 1 80 (mkState 0 (filled 3 50) (Num 100) [0; 1])) = [0; 1] /\
  height (updateH 1 80 (mkState 0 (filled 3 50) (Num 100) [0; 1])) = Num 100.
Proof.
  apply (updateH_frame (mkState 0 (filled 3 50) (Num 100) [0; 1]) 1 80).
  simpl. lia.
Defined.

(** * Further properties of the list *)

(** ** Prefix sums, one index at a time *)

Lemma cumulative_loop_last (hs : array) :
  forall (n : nat) (h : number) (idx : nat),
    cumulative_loop hs (S n) h idx =
    add (cumulative_loop hs n h idx) (to_number (get hs (idx + n))).
Proof.
  induction n as [|n IH]; intros h idx.
  - simpl. rewrite Nat.add_0_r. reflexivity.
  - change (cumulative_loop hs (S (S n)) h idx) with
      (cumulative_loop hs (S n) (add h (to_number (get hs idx))) (S idx)).
    rewrite IH. simpl cumulative_loop.
    replace (S idx + n)%nat with (idx + S n)%nat by lia. reflexivity.
Qed.

Lemma getCumulativeHeight_succ (hs : array) (k : nat) :
  getCumulativeHeight hs (Z.of_nat k + 1) =
  add (getCumulativeHeight hs (Z.of_nat k)) (to_number (get hs k)).
Proof.
  unfold getCumulativeHeight.
  replace (Z.to_nat (Z.of_nat k + 1)) with (S k) by lia.
  rewrite Nat2Z.id. apply cumulative_loop_last.
Qed.

Lemma add_NaN_l (b : number) : add NaN b = NaN.
Proof. reflexivity. Qed.

Lemma getCumulativeHeight_past_end (hs : array) (n : nat) :
  getCumulativeHeight hs (Z.of_nat (length hs + S n)) = NaN.
Proof.
  induction n as [|n IH].
  - replace (Z.of_nat (length hs + 1)) with (Z.of_nat (length hs) + 1) by lia.
    rewrite getCumulativeHeight_succ, get_ge by lia. apply add_undefined.
  - replace (Z.of_nat (length hs + S (S n)))
      with (Z.of_nat (length hs + S n) + 1) by lia.
    rewrite getCumulativeHeight_succ, IH. reflexivity.
Qed.

(** X1.  [getCumulativeHeight] obeys the recurrence of a prefix sum on every
    store, holes included: it is 0 for an index that is 0 or negative,
    [getCumulativeHeight(k + 1)] is [getCumulativeHeight(k)] plus the height
    read at [k], and for an index beyond the length of the store it is
    [NaN]. *)
Theorem getCumulativeHeight_recurrence (hs : array) (k : nat) :
  getCumulativeHeight hs (- Z.of_nat k) = Num 0 /\
  getCumulativeHeight hs (Z.of_nat k + 1) =
    add (getCumulativeHeight hs (Z.of_nat k)) (to_number (getZ hs (Z.of_nat k))) /\
  getCumulativeHeight hs (Z.of_nat (length hs) + 1 + Z.of_nat k) = NaN.
Proof.
  split; [|split].
  - unfold getCumulativeHeight.
    replace (Z.to_nat (- Z.of_nat k)) with 0%nat by lia. reflexivity.
  - unfold getZ.
    destruct (Z.of_nat k <? 0) eqn:Hneg; [apply Z.ltb_lt in Hneg; lia|].
    rewrite Nat2Z.id. apply getCumulativeHeight_succ.
  - replace (Z.of_nat (length hs) + 1 + Z.of_nat k)
      with (Z.of_nat (length hs + S k)) by lia.
    apply getCumulativeHeight_past_end.
Qed.

(** ** Array assignment, in and out of range *)

Lemma length_set (a : array) (i : nat) (v : Z) :
  length (set a i v) = Nat.max (length a) (S i).
Proof.
  unfold set. destruct (decide (i < length a)%nat) as [Hlt|Hge].
  - rewrite length_insert. lia.
  - rewrite !length_app, length_replicate. simpl. lia.
Qed.

Lemma lookup_set (a : array) (i j : nat) (v : Z) :
  set a i v !! j =
  if decide (j = i) then Some (Some v)
  else if decide (j < Nat.max (length a) (S i))%nat then Some (get a j)
  else None.
Proof.
  destruct (decide (j = i)) as [->|Hne]; [apply lookup_set_eq|].
  unfold set, get. destruct (decide (i < length a)%nat) as [Hlt|Hge].
  - rewrite list_lookup_insert_ne by congruence.
    destruct (decide (j < Nat.max (length a) (S i))%nat) as [Hj|Hj].
    + destruct (lookup_lt_is_Some_2 a j) as [c Hc]; [lia|].
      rewrite Hc. reflexivity.
    + apply lookup_ge_None_2. lia.
  - destruct (decide (j < Nat.max (length a) (S i))%nat) as [Hj|Hj].
    + destruct (decide (j < length a)%nat) as [Hin|Hout].
      * rewrite lookup_app_l by exact Hin.
        destruct (lookup_lt_is_Some_2 a j Hin) as [c Hc].
        rewrite Hc. reflexivity.
      * rewrite lookup_app_r by lia.
        rewrite lookup_app_l by (rewrite length_replicate; lia).
        rewrite lookup_replicate_2 by lia.
        rewrite (lookup_ge_None_2 a j) by lia. reflexivity.
    + apply lookup_ge_None_2.
      rewrite !length_app, length_replicate. simpl. lia.
Qed.

Lemma get_set (a : array) (i j : nat) (v : Z) :
  get (set a i v) j = if decide (j = i) then Some v else get a j.
Proof.
  unfold get at 1. rewrite lookup_set.
  destruct (decide (j = i)); [reflexivity|].
  destruct (decide (j < Nat.max (length a) (S i))%nat) as [Hj|Hj]; [reflexivity|].
  simpl. symmetry. apply get_ge. lia.
Qed.

Lemma set_set_eq (a : array) (i : nat) (v w : Z) :
  set (set a i v) i w = set a i w.
Proof.
  apply list_eq. intros j. rewrite !lookup_set, !length_set.
  destruct (decide (j = i)); [reflexivity|].
  rewrite get_set. destruct (decide (j = i)); [contradiction|].
  repeat case_decide; try reflexivity; lia.
Qed.

Lemma set_set_ne (a : array) (i j : nat) (v w : Z) :
  i <> j -> set (set a j w) i v = set (set a i v) j w.
Proof.
  intros Hij. apply list_eq. intros x.
  rewrite !lookup_set, !length_set, !get_set.
  repeat case_decide; try reflexivity; try lia; congruence.
Qed.


(** X3.  Two writes to one index: the later one wins, so that reporting the
    same height twice is the same as reporting it once. *)
Theorem updateH_last_write_wins (st : State) (idx h1 h2 : Z) :
  updateH idx h2 (updateH idx h1 st) = updateH idx h2 st /\
  updateH idx h1 (updateH idx h1 st) = updateH idx h1 st.
Proof.
  assert (H : forall a b, updateH idx b (updateH idx a st) = updateH idx b st).
  { intros a b. unfold updateH. destruct (idx <? 0) eqn:Hneg.
    - reflexivity.
    - unfold set_itemHeights. simpl. rewrite set_set_eq. reflexivity. }
  split; apply H.
Qed.

(** X4.  Writes to different indices commute, in or out of range: the store
    does not depend on the order in which cells report their heights. *)
Theorem updateH_commute (st : State) (i j h k : Z) :
  i <> j ->
  updateH i h (updateH j k st) = updateH j k (updateH i h st).
Proof.
  intros Hij. unfold updateH.
  destruct (i <? 0) eqn:Hi, (j <? 0) eqn:Hj; simpl;
    rewrite ?Hi, ?Hj; try reflexivity.
  apply Z.ltb_ge in Hi, Hj. unfold set_itemHeights. simpl.
  rewrite (set_set_ne _ (Z.to_nat i) (Z.to_nat j)) by lia. reflexivity.
Qed.

Lemma updateH_commute_witness :
  updateH 0 80 (updateH 7 20 (mkState 0 (filled 3 50) (Num 100) [0; 1])) =
  updateH 7 20 (updateH 0 80 (mkState 0 (filled 3 50) (Num 100) [0; 1])).
Proof. apply (updateH_commute _ 0 7 80 20). lia. Defined.

(** ** A measurement and the prefix sums *)

Lemma total_take_insert (a : array) :
  forall (i k : nat) (old h : Z),
    a !! i = Some (Some old) ->
    total (take k (<[i := Some h]> a)) =
    total (take k a) + (if decide (i < k)%nat then h - old else 0).
Proof.
  induction a as [|c a IH]; intros i k old h Hi; [discriminate|].
  destruct i as [|i], k as [|k]; simpl in *.
  - lia.
  - injection Hi as ->. simpl. lia.
  - lia.
  - rewrite (IH i k old h Hi).
    destruct (decide (i < k)%nat), (decide (S i < S k)%nat); lia.
Qed.

(** X5.  On a store that holds a number in every cell, replacing the height
    [old] of item [idx] by a measured [h] leaves the prefix sums up to [idx]
    as they are and shifts every later one (up to the length of the store)
    by [h - old]. *)
Theorem updateH_shifts_later_offsets (st : State) (idx h old k : Z) :
  all_heights (fun _ => true) (itemHeights st) = true ->
  0 <= idx < Z.of_nat (length (itemHeights st)) ->
  getZ (itemHeights st) idx = Some old ->
  k <= Z.of_nat (length (itemHeights st)) ->
  getCumulativeHeight (itemHeights (updateH idx h st)) k =
  add (getCumulativeHeight (itemHeights st) k)
      (Num (if idx <? k then h - old else 0)).
Proof.
  intros Hnum Hidx Hold Hk.
  destruct (updateH_store (fun _ => true) idx h st Hidx eq_refl Hnum) as [Hlen Hnum'].
  rewrite (getCumulativeHeight_sum _ _ _ Hnum') by lia.
  rewrite (getCumulativeHeight_sum _ _ _ Hnum) by lia.
  unfold updateH, getZ in *.
  destruct (idx <? 0) eqn:Hneg; [apply Z.ltb_lt in Hneg; lia|].
  simpl. unfold set.
  destruct (decide (Z.to_nat idx < length (itemHeights st))%nat) as [_|Hout]; [|lia].
  destruct (all_heights_lookup _ _ (Z.to_nat idx) Hnum) as (z & Hz & _); [lia|].
  rewrite (get_lookup_Some _ _ _ Hz) in Hold. injection Hold as ->.
  rewrite (total_take_insert _ _ _ _ h Hz). f_equal.
  destruct (decide (Z.to_nat idx < Z.to_nat k)%nat) as [Hlt|Hge].
  - replace (idx <? k) with true by (symmetry; apply Z.ltb_lt; lia). reflexivity.
  - replace (idx <? k) with false by (symmetry; apply Z.ltb_ge; lia). reflexivity.
Qed.

Lemma updateH_shifts_later_offsets_witness :
  getCumulativeHeight
    (itemHeights (updateH 0 80 (mkState 0 (filled 3 50) (Num 100) [0; 1]))) 3 =
  add (getCumulativeHeight (filled 3 50) 3) (Num (if 0 <? 3 then 80 - 50 else 0)).
Proof.
  apply (updateH_shifts_later_offsets
           (mkState 0 (filled 3 50) (Num 100) [0; 1]) 0 80 50 3).
  - reflexivity.
  - simpl. lia.
  - reflexivity.
  - simpl. lia.
Defined.

(** ** The start index on any store *)

(** X6.  [findStartIndex] returns on every store (holes, zero or negative
    heights included), for every buffer and every scroll position: its loop
    stops within one iteration per entry plus one, and the answer lies
    between 0 and [length + 1 - bufferCount]. *)
Theorem findStartIndex_returns (hs : array) (b pos : Z) :
  exists (sum : number) (idx : nat) (r : Z),
    start_loop hs pos (length hs + 1) (Num 0) 0 = Some (sum, idx) /\
    findStartIndex hs b pos = Some r /\
    r = Z.max 0 (Z.of_nat idx - b) /\
    0 <= r <= Z.max 0 (Z.of_nat (length hs) + 1 - b).
Proof.
  destruct (start_loop_total hs pos) as (sum & idx & Hrun & Hidx).
  exists sum, idx, (Z.max 0 (Z.of_nat idx - b)).
  unfold start_fuel in Hrun.
  replace (length hs + 1)%nat with (S (length hs)) by lia.
  split; [exact Hrun|]. split.
  - unfold findStartIndex, start_fuel. rewrite Hrun. reflexivity.
  - split; [reflexivity|lia].
Qed.

(** X7.  On a store of heights that are not negative, and for a scroll
    position within the total height, the index found by [findStartIndex]
    (before the buffer is taken off) is the smallest [k] with
    [getCumulativeHeight(k) >= scrollPosition]: the first item whose top edge
    is at or below the scroll position.  At a scroll position of 0 or less
    it is 0. *)
Theorem findStartIndex_first_top_at_or_below (hs : array) (b pos : Z) :
  nonneg_store hs = true -> pos <= total hs ->
  exists idx : nat,
    findStartIndex hs b pos = Some (Z.max 0 (Z.of_nat idx - b)) /\
    (idx <= length hs)%nat /\
    le (Num pos) (getCumulativeHeight hs (Z.of_nat idx)) = true /\
    (forall j : nat,
       (j < idx)%nat -> lt (getCumulativeHeight hs (Z.of_nat j)) (Num pos) = true) /\
    (pos <= 0 -> idx = 0%nat).
Proof.
  intros Hnn Hpos.
  destruct (start_loop_first_reaching hs pos Hnn (length hs) 0%nat)
    as (idx & Hrun & Hrange & Hreach & Hmin); [lia|lia|exact Hpos|lia|].
  exists idx. split.
  - unfold findStartIndex, start_fuel.
    change (Num 0) with (Num (total (take 0 hs))). rewrite Hrun. reflexivity.
  - split; [lia|]. split; [|split].
    + rewrite (getCumulativeHeight_sum _ _ _ Hnn) by lia.
      rewrite Nat2Z.id. apply Z.leb_le, Hreach.
    + intros j Hj.
      rewrite (getCumulativeHeight_sum _ _ _ Hnn) by lia.
      rewrite Nat2Z.id. apply Z.ltb_lt, Hmin, Hj.
    + intros Htop. destruct idx as [|idx]; [reflexivity|].
      specialize (Hmin 0%nat ltac:(lia)). simpl in Hmin. lia.
Qed.

Lemma findStartIndex_first_top_at_or_below_witness :
  exists idx : nat,
    findStartIndex (filled 3 50) 1 120 = Some (Z.max 0 (Z.of_nat idx - 1)) /\
    (idx <= length (filled 3 50))%nat /\
    le (Num 120) (getCumulativeHeight (filled 3 50) (Z.of_nat idx)) = true /\
    (forall j : nat,
       (j < idx)%nat ->
       lt (getCumulativeHeight (filled 3 50) (Z.of_nat j)) (Num 120) = true) /\
    (120 <= 0 -> idx = 0%nat).
Proof.
  apply (findStartIndex_first_top_at_or_below (filled 3 50) 1 120).
  - reflexivity.
  - simpl. lia.
Defined.

(** ** The end index *)

Lemma span_S (hs : array) (i k : nat) (z : Z) :
  hs !! i = Some (Some z) -> span hs i (S k) = z + span hs (S i) k.
Proof.
  intros Hz. unfold span. rewrite (drop_S _ _ _ Hz). reflexivity.
Qed.

Lemma getZ_lookup (hs : array) (i : nat) (c : option Z) :
  hs !! i = Some c -> getZ hs (Z.of_nat i) = c.
Proof.
  intros Hc. unfold getZ.
  destruct (Z.of_nat i <? 0) eqn:Hneg; [apply Z.ltb_lt in Hneg; lia|].
  rewrite Nat2Z.id. apply get_lookup_Some, Hc.
Qed.

(** On a store of numbers the loop of [findEndIndex] stops at the first
    index at which the accumulated height exceeds the threshold, or at the
    last index it is given. *)
Lemma end_loop_first_crossing (ok : Z -> bool) (hs : array) (th : Z) :
  all_heights ok hs = true ->
  forall (n i : nat) (t e0 : Z),
    (i + n <= length hs)%nat -> (0 < n)%nat ->
    exists k : nat,
      (k < n)%nat /\
      end_loop hs th n (Z.of_nat i) (Num t) e0 = Z.of_nat (i + k) /\
      (forall j : nat, (j < k)%nat -> t + span hs i (S j) <= th) /\
      ((k < n - 1)%nat -> th < t + span hs i (S k)).
Proof.
  intros Hok. induction n as [|n IH]; intros i t e0 Hlen Hn; [lia|].
  destruct (all_heights_lookup ok hs i Hok) as (z & Hz & _); [lia|].
  rewrite end_loop_S, (getZ_lookup _ _ _ Hz).
  change (add (Num t) (to_number (Some z))) with (Num (t + z)).
  destruct (gt (Num (t + z)) (Num th)) eqn:Hgt.
  - apply Z.ltb_lt in Hgt. exists 0%nat.
    split; [lia|]. split; [f_equal; lia|]. split; [intros j Hj; lia|].
    intros _. rewrite (span_S _ _ _ _ Hz). unfold span. simpl. lia.
  - apply Z.ltb_ge in Hgt.
    destruct n as [|n].
    + exists 0%nat. split; [lia|]. split; [simpl; f_equal; lia|].
      split; intros; lia.
    + replace (Z.of_nat i + 1) with (Z.of_nat (S i)) by lia.
      destruct (IH (S i) (t + z) (Z.of_nat i)) as (k & Hk & Hrun & Hbelow & Hcross);
        [lia|lia|].
      exists (S k). split; [lia|]. split; [rewrite Hrun; f_equal; lia|]. split.
      * intros j Hj. rewrite (span_S _ _ _ _ Hz).
        destruct j as [|j]; [unfold span; simpl; lia|].
        specialize (Hbelow j ltac:(lia)). lia.
      * intros Hlast. rewrite (span_S _ _ _ _ Hz).
        specialize (Hcross ltac:(lia)). lia.
Qed.

(** The same for [findEndIndex], from a start index inside the list. *)
Lemma findEndIndex_crossing
    (ok : Z -> bool) (p : VirtualListProps) (hs : array) (s : nat) :
  all_heights ok hs = true -> length hs = length (data p) ->
  (s < length (data p))%nat ->
  exists k : nat,
    (s + k < length (data p))%nat /\
    findEndIndex p hs (Z.of_nat s) =
      Z.min (Z.of_nat (length (data p)) - 1) (Z.of_nat (s + k) + bufferCount p) /\
    (forall j : nat,
       (j < k)%nat ->
       span hs s (S j) <= containerHeight p + bufferCount p * estimatedItemHeight p) /\
    ((s + k < length (data p) - 1)%nat ->
     containerHeight p + bufferCount p * estimatedItemHeight p < span hs s (S k)).
Proof.
  intros Hok Hlen Hs.
  destruct (end_loop_first_crossing ok hs
              (containerHeight p + bufferCount p * estimatedItemHeight p) Hok
              (length (data p) - s) s 0 (Z.of_nat s))
    as (k & Hk & Hrun & Hbelow & Hcross); [lia|lia|].
  exists k. split; [lia|]. split; [|split].
  - unfold findEndIndex.
    replace (Z.to_nat (Z.of_nat (length (data p)) - Z.of_nat s))
      with (length (data p) - s)%nat by lia.
    rewrite Hrun. reflexivity.
  - intros j Hj. specialize (Hbelow j Hj). lia.
  - intros Hlast. specialize (Hcross ltac:(lia)). lia.
Qed.

(** X8.  On a store that holds a number for each of the [N] items, and from
    a start index inside the list, [findEndIndex] walks to the first index
    at which the heights accumulated from the start exceed
    [containerHeight + bufferCount * estimatedItemHeight], or to the last
    index if they never do, then adds [bufferCount] and clamps to [N - 1]. *)
Theorem findEndIndex_first_crossing
    (ok : Z -> bool) (p : VirtualListProps) (hs : array) (startIndex : Z) :
  all_heights ok hs = true -> length hs = length (data p) ->
  0 <= startIndex < Z.of_nat (length (data p)) ->
  exists k : nat,
    startIndex + Z.of_nat k <= Z.of_nat (length (data p)) - 1 /\
    findEndIndex p hs startIndex =
      Z.min (Z.of_nat (length (data p)) - 1)
            (startIndex + Z.of_nat k + bufferCount p) /\
    (forall j : nat,
       (j < k)%nat ->
       span hs (Z.to_nat startIndex) (S j)
       <= containerHeight p + bufferCount p * estimatedItemHeight p) /\
    (startIndex + Z.of_nat k < Z.of_nat (length (data p)) - 1 ->
     containerHeight p + bufferCount p * estimatedItemHeight p
     < span hs (Z.to_nat startIndex) (S k)).
Proof.
  intros Hok Hlen Hs.
  destruct (findEndIndex_crossing ok p hs (Z.to_nat startIndex) Hok Hlen)
    as (k & Hk & Hend & Hbelow & Hcross); [lia|].
  rewrite Z2Nat.id in Hend by lia.
  exists k. split; [lia|]. split.
  - rewrite Hend. f_equal. lia.
  - split; [exact Hbelow|]. intros Hlast. apply Hcross. lia.
Qed.

Lemma findEndIndex_first_crossing_witness :
  exists k : nat,
    0 + Z.of_nat k <= Z.of_nat (length (data (sample_props 3 100 50 0))) - 1 /\
    findEndIndex (sample_props 3 100 50 0) (filled 3 50) 0 =
      Z.min (Z.of_nat (length (data (sample_props 3 100 50 0))) - 1)
            (0 + Z.of_nat k + bufferCount (sample_props 3 100 50 0)) /\
    (forall j : nat,
       (j < k)%nat ->
       span (filled 3 50) (Z.to_nat 0) (S j)
       <= containerHeight (sample_props 3 100 50 0) +
          bufferCount (sample_props 3 100 50 0) *
          estimatedItemHeight (sample_props 3 100 50 0)) /\
    (0 + Z.of_nat k < Z.of_nat (length (data (sample_props 3 100 50 0))) - 1 ->
     containerHeight (sample_props 3 100 50 0) +
     bufferCount (sample_props 3 100 50 0) *
     estimatedItemHeight (sample_props 3 100 50 0)
     < span (filled 3 50) (Z.to_nat 0) (S k)).
Proof.
  apply (findEndIndex_first_crossing (fun _ => true)
           (sample_props 3 100 50 0) (filled 3 50) 0).
  - reflexivity.
  - reflexivity.
  - simpl. lia.
Defined.

(** X9.  On every store, [findEndIndex] never passes the last index, and it
    is at least [startIndex + bufferCount] unless that would pass the last
    index: with a buffer that is not negative, a start index inside the list
    gives an end index that is not before it. *)
Theorem findEndIndex_range (p : VirtualListProps) (hs : array) (s : Z) :
  findEndIndex p hs s <= Z.of_nat (length (data p)) - 1 /\
  Z.min (Z.of_nat (length (data p)) - 1) (s + bufferCount p) <= findEndIndex p hs s /\
  (0 <= bufferCount p -> s <= Z.of_nat (length (data p)) - 1 ->
   s <= findEndIndex p hs s).
Proof.
  pose proof (findEndIndex_le p hs s) as Hhi.
  pose proof (findEndIndex_ge p hs s) as Hlo.
  split; [exact Hhi|]. split; [exact Hlo|]. lia.
Qed.

(** ** How many cells are rendered *)

Lemma span_at_least (m : Z) (hs : array) :
  all_heights (fun z => m <=? z) hs = true ->
  forall (k i : nat),
    (i + k <= length hs)%nat -> Z.of_nat k * m <= span hs i k.
Proof.
  intros Hm. induction k as [|k IH]; intros i Hlen.
  - unfold span. simpl. lia.
  - destruct (all_heights_lookup _ hs i Hm) as (z & Hz & Hz0); [lia|].
    apply Z.leb_le in Hz0. rewrite (span_S _ _ _ _ Hz).
    specialize (IH (S i) ltac:(lia)). lia.
Qed.

(** X10.  The point of the virtual list: when every stored height is at
    least [m > 0] and the buffer is not negative, the window effect stores
    at most [(containerHeight + bufferCount * estimatedItemHeight) / m +
    bufferCount] indices to render, however many items there are and
    wherever the list is scrolled. *)
Theorem rendered_count_bounded (p : VirtualListProps) (st : State) (m : Z) :
  0 < m -> 0 <= bufferCount p ->
  length (itemHeights st) = length (data p) ->
  all_heights (fun z => m <=? z) (itemHeights st) = true ->
  exists st',
    windowEffect p st = Done st' /\
    Z.of_nat (length (renderList st')) <=
    Z.max 0 ((containerHeight p + bufferCount p * estimatedItemHeight p) / m)
    + bufferCount p.
Proof.
  intros Hm Hb Hlen Hall.
  destruct (resolveWindow_total p (itemHeights st) (scrollTop st))
    as (idx & s & e & Hw & Hs & _ & He).
  exists (set_renderList st (from_length (e - s) s)). split.
  - unfold windowEffect. rewrite Hw. reflexivity.
  - simpl. unfold from_length. rewrite length_fmap, length_seq.
    set (T := containerHeight p + bufferCount p * estimatedItemHeight p).
    assert (H0 : 0 <= Z.max 0 (T / m) + bufferCount p) by lia.
    destruct (decide (s < Z.of_nat (length (data p)))) as [Hin|Hout].
    + destruct (findEndIndex_crossing _ p (itemHeights st) (Z.to_nat s)
                  Hall Hlen) as (k & Hk & Hend & Hbelow & _); [lia|].
      rewrite Z2Nat.id in Hend by lia. rewrite <- He in Hend.
      assert (Hkm : Z.of_nat k <= Z.max 0 (T / m)).
      { destruct k as [|k]; [lia|].
        specialize (Hbelow k ltac:(lia)). fold T in Hbelow.
        pose proof (span_at_least m _ Hall (S k) (Z.to_nat s) ltac:(lia)) as Hspan.
        assert (Z.of_nat (S k) <= T / m); [|lia].
        apply Z.div_le_lower_bound; lia. }
      lia.
    + pose proof (findEndIndex_le p (itemHeights st) s). lia.
Qed.

Lemma rendered_count_bounded_witness :
  exists st',
    windowEffect (sample_props 9 100 50 1) (mkState 120 (filled 9 50) (Num 400) [])
      = Done st' /\
    Z.of_nat (length (renderList st')) <=
    Z.max 0 ((containerHeight (sample_props 9 100 50 1) +
              bufferCount (sample_props 9 100 50 1) *
              estimatedItemHeight (sample_props 9 100 50 1)) / 50)
    + bufferCount (sample_props 9 100 50 1).
Proof.
  apply (rendered_count_bounded (sample_props 9 100 50 1)
           (mkState 120 (filled 9 50) (Num 400) []) 50).
  - lia.
  - simpl. lia.
  - reflexivity.
  - reflexivity.
Defined.

(** ** Mounting: every height is still the estimate *)

Lemma span_filled (n : nat) (v : Z) (i k : nat) :
  (i + k <= n)%nat -> span (filled n v) i k = Z.of_nat k * v.
Proof.
  intros Hlen. unfold span, filled.
  rewrite drop_replicate, take_replicate.
  replace (k `min` (n - i))%nat with k by lia.
  induction k as [|k IH]; [reflexivity|].
  change (total (replicate (S k) (Some v)))
    with (v + total (replicate k (Some v))).
  rewrite IH by lia. lia.
Qed.

Lemma findStartIndex_at_top (hs : array) (b : Z) :
  findStartIndex hs b 0 = Some (Z.max 0 (- b)).
Proof. reflexivity. Qed.

Lemma findEndIndex_filled (p : VirtualListProps) :
  0 < estimatedItemHeight p -> 0 <= containerHeight p -> 0 <= bufferCount p ->
  (0 < length (data p))%nat ->
  findEndIndex p (filled (length (data p)) (estimatedItemHeight p)) 0 =
  Z.min (Z.of_nat (length (data p)) - 1)
        (containerHeight p / estimatedItemHeight p + 2 * bufferCount p).
Proof.
  intros Hest Hc Hb HN.
  set (N := length (data p)) in *.
  set (est := estimatedItemHeight p) in *.
  set (T := containerHeight p + bufferCount p * est).
  destruct (findEndIndex_crossing (fun _ => true) p (filled N est) 0)
    as (k & Hk & Hend & Hbelow & Hcross).
  { apply all_heights_filled. reflexivity. }
  { apply length_replicate. }
  { exact HN. }
  fold N est T in Hk, Hend, Hbelow, Hcross.
  change (Z.of_nat 0) with 0 in Hend. rewrite Hend.
  assert (HT : T / est = containerHeight p / est + bufferCount p).
  { unfold T. apply Z.div_add. lia. }
  assert (Hle : (0 < k)%nat -> Z.of_nat k <= T / est).
  { intros Hpos. destruct k as [|k]; [lia|].
    specialize (Hbelow k ltac:(lia)).
    rewrite span_filled in Hbelow by lia.
    apply Z.div_le_lower_bound; lia. }
  assert (Hge : (0 + k < N - 1)%nat -> T / est <= Z.of_nat k).
  { intros Hlast. specialize (Hcross Hlast).
    rewrite span_filled in Hcross by lia.
    assert (T / est < Z.of_nat (S k)); [|lia].
    apply Z.div_lt_upper_bound; lia. }
  assert (0 <= T / est) by (apply Z.div_pos; unfold T; nia).
  destruct (decide (0 + k < N - 1)%nat) as [Hlast|Hlast].
  - specialize (Hge Hlast).
    destruct (decide (0 < k)%nat) as [Hpos|Hzero]; [specialize (Hle Hpos)|]; lia.
  - assert (Hpos : k = (N - 1)%nat) by lia.
    destruct (decide (0 < k)%nat) as [Hk0|Hk0]; [specialize (Hle Hk0)|]; lia.
Qed.

Lemma getCumulativeHeight_filled (n : nat) (v k : Z) :
  0 <= k <= Z.of_nat n ->
  getCumulativeHeight (filled n v) k = Num (k * v).
Proof.
  intros Hk. rewrite (getCumulativeHeight_sum (fun _ => true)).
  - f_equal. change (take (Z.to_nat k) (filled n v))
      with (take (Z.to_nat k) (drop 0 (filled n v))).
    fold (span (filled n v) 0 (Z.to_nat k)).
    rewrite span_filled by lia. rewrite Z2Nat.id by lia. reflexivity.
  - apply all_heights_filled. reflexivity.
  - unfold filled. rewrite length_replicate. lia.
Qed.

(** X11.  The state after mounting, for an estimate that is positive and a
    container height and a buffer that are not negative, over [N >= 1]
    items: the store holds the estimate [N] times, the spacer is [N - 1]
    estimates high, and the cells to render are those of the indices from 0
    up to, but not including,
    [min(N - 1, containerHeight / estimate + 2 * bufferCount)]. *)
Theorem mount_state (p : VirtualListProps) :
  0 < estimatedItemHeight p -> 0 <= containerHeight p -> 0 <= bufferCount p ->
  (0 < length (data p))%nat ->
  mount p =
  Done (mkState 0
          (filled (length (data p)) (estimatedItemHeight p))
          (Num ((Z.of_nat (length (data p)) - 1) * estimatedItemHeight p))
          (from_length
             (Z.min (Z.of_nat (length (data p)) - 1)
                    (containerHeight p / estimatedItemHeight p + 2 * bufferCount p))
             0)).
Proof.
  intros Hest Hc Hb HN.
  unfold mount, windowEffect, resolveWindow, initEffect, initial.
  simpl itemHeights. simpl scrollTop.
  rewrite findStartIndex_at_top.
  replace (Z.max 0 (- bufferCount p)) with 0 by lia.
  rewrite (findEndIndex_filled p Hest Hc Hb HN).
  simpl. unfold heightEffect, set_height, set_renderList. simpl.
  destruct (length (data p) =? 0)%nat eqn:Hzero;
    [apply Nat.eqb_eq in Hzero; lia|].
  rewrite Z.sub_0_r, getCumulativeHeight_filled by lia. reflexivity.
Qed.

Lemma mount_state_witness :
  mount (sample_props 9 100 50 1) =
  Done (mkState 0
          (filled (length (data (sample_props 9 100 50 1)))
                  (estimatedItemHeight (sample_props 9 100 50 1)))
          (Num ((Z.of_nat (length (data (sample_props 9 100 50 1))) - 1)
                * estimatedItemHeight (sample_props 9 100 50 1)))
          (from_length
             (Z.min (Z.of_nat (length (data (sample_props 9 100 50 1))) - 1)
                    (containerHeight (sample_props 9 100 50 1)
                     / estimatedItemHeight (sample_props 9 100 50 1)
                     + 2 * bufferCount (sample_props 9 100 50 1)))
             0)).
Proof.
  apply (mount_state (sample_props 9 100 50 1)).
  - simpl. lia.
  - simpl. lia.
  - simpl. lia.
  - simpl. lia.
Defined.

Lemma span_mono (hs : array) (s j k : nat) :
  nonneg_store hs = true -> (j <= k)%nat -> span hs s j <= span hs s k.
Proof.
  intros Hnn Hjk. unfold span. apply total_take_mono; [|exact Hjk].
  apply all_heights_drop, Hnn.
Qed.

(** X22.  How much the rendered cells cover, on a store of [N] heights that
    are not negative and from a start index inside the list.  With a buffer
    of at least one item, unless the window reaches the end of the list, the
    cells from [startIndex] up to (not including) [endIndex] are together
    higher than [containerHeight + bufferCount * estimatedItemHeight].  With
    a buffer of 0 they are together never higher than [containerHeight]. *)
Theorem rendered_heights_cover
    (p : VirtualListProps) (hs : array) (s : nat) :
  nonneg_store hs = true -> length hs = length (data p) ->
  (s < length (data p))%nat ->
  (1 <= bufferCount p ->
   findEndIndex p hs (Z.of_nat s) < Z.of_nat (length (data p)) - 1 ->
   containerHeight p + bufferCount p * estimatedItemHeight p <
   span hs s (Z.to_nat (findEndIndex p hs (Z.of_nat s) - Z.of_nat s))) /\
  (bufferCount p = 0 -> 0 <= containerHeight p ->
   span hs s (Z.to_nat (findEndIndex p hs (Z.of_nat s) - Z.of_nat s))
   <= containerHeight p).
Proof.
  intros Hnn Hlen Hs.
  destruct (findEndIndex_crossing _ p hs s Hnn Hlen Hs)
    as (k & Hk & Hend & Hbelow & Hcross).
  rewrite Hend. split.
  - intros Hb Hclamp.
    assert (Hlast : (s + k < length (data p) - 1)%nat) by lia.
    specialize (Hcross Hlast).
    eapply Z.lt_le_trans; [exact Hcross|].
    apply span_mono; [exact Hnn|lia].
  - intros Hb Hc. rewrite Hb in *.
    replace (Z.to_nat (Z.min (Z.of_nat (length (data p)) - 1) (Z.of_nat (s + k) + 0)
                       - Z.of_nat s)) with k by lia.
    destruct k as [|k]; [unfold span; simpl; lia|].
    specialize (Hbelow k ltac:(lia)). lia.
Qed.

Lemma rendered_heights_cover_witness :
  (1 <= bufferCount (sample_props 9 100 50 1) ->
   findEndIndex (sample_props 9 100 50 1) (filled 9 50) (Z.of_nat 1)
     < Z.of_nat (length (data (sample_props 9 100 50 1))) - 1 ->
   containerHeight (sample_props 9 100 50 1) +
   bufferCount (sample_props 9 100 50 1) * estimatedItemHeight (sample_props 9 100 50 1) <
   span (filled 9 50) 1
     (Z.to_nat (findEndIndex (sample_props 9 100 50 1) (filled 9 50) (Z.of_nat 1)
                - Z.of_nat 1))) /\
  (bufferCount (sample_props 9 100 50 1) = 0 ->
   0 <= containerHeight (sample_props 9 100 50 1) ->
   span (filled 9 50) 1
     (Z.to_nat (findEndIndex (sample_props 9 100 50 1) (filled 9 50) (Z.of_nat 1)
                - Z.of_nat 1))
   <= containerHeight (sample_props 9 100 50 1)).
Proof.
  apply (rendered_heights_cover (sample_props 9 100 50 1) (filled 9 50) 1).
  - reflexivity.
  - reflexivity.
  - simpl. lia.
Defined.

(** ** The rendered window over the life of the list *)

(** The render list is always a run of consecutive indices that starts at 0
    or later and stops below [endIndex <= N - 1]. *)
Lemma step_window (p : VirtualListProps) (st : State) (ev : event) :
  (exists s e : Z,
     renderList st = from_length (e - s) s /\
     0 <= s /\ e <= Z.of_nat (length (data p)) - 1) ->
  exists st',
    step p st ev = Done st' /\
    exists s e : Z,
      renderList st' = from_length (e - s) s /\
      0 <= s /\ e <= Z.of_nat (length (data p)) - 1.
Proof.
  intros Hinv. destruct ev as [v|idx h]; simpl.
  - unfold handleScroll. destruct (v =? scrollTop st).
    + exists st. auto.
    + destruct (windowEffect_Done p (set_scrollTop st v)) as (s & e & Hw & Hrun & _).
      eexists. split; [exact Hrun|]. exists s, e. simpl.
      split; [reflexivity|]. eapply window_bounds, Hw.
  - eexists. split; [reflexivity|].
    unfold updateH. destruct (idx <? 0); exact Hinv.
Qed.

Lemma run_window (p : VirtualListProps) (evs : list event) :
  forall st : State,
    (exists s e : Z,
       renderList st = from_length (e - s) s /\
       0 <= s /\ e <= Z.of_nat (length (data p)) - 1) ->
    exists st',
      run p evs st = Done st' /\
      exists s e : Z,
        renderList st' = from_length (e - s) s /\
        0 <= s /\ e <= Z.of_nat (length (data p)) - 1.
Proof.
  induction evs as [|ev evs IH]; intros st Hinv; simpl.
  - exists st. auto.
  - destruct (step_window p st ev Hinv) as (st1 & Hstep & Hinv1).
    rewrite Hstep. simpl. apply IH, Hinv1.
Qed.

Lemma lifetime_window (p : VirtualListProps) (evs : list event) :
  exists (st : State) (s e : Z),
    lifetime p evs = Done st /\
    renderList st = from_length (e - s) s /\
    0 <= s /\ e <= Z.of_nat (length (data p)) - 1.
Proof.
  destruct (mount_Done p) as (s0 & e0 & Hw & Hmount & _).
  unfold lifetime. rewrite Hmount. simpl.
  destruct (run_window p evs
    (heightEffect p (set_renderList (initEffect p initial) (from_length (e0 - s0) s0))))
    as (st & Hrun & s & e & Hinv).
  - exists s0, e0. simpl. split; [reflexivity|]. eapply window_bounds, Hw.
  - exists st, s, e. auto.
Qed.

Lemma renderCell_in_range (p : VirtualListProps) (st : State) (i : Z) :
  0 <= i < Z.of_nat (length (data p)) ->
  exists item,
    data p !! Z.to_nat i = Some item /\
    renderCell p st i =
      Done (mkCell (id item) i (getCumulativeHeight (itemHeights st) i) (content item)).
Proof.
  intros Hi. destruct (data_at_in_range p i Hi) as [item Hitem].
  exists item. unfold renderCell. rewrite Hitem.
  unfold data_at in Hitem.
  destruct (i <? 0) eqn:Hneg; [discriminate|]. split; [exact Hitem|].
  destruct (i =? 0) eqn:Hz; [|reflexivity].
  apply Z.eqb_eq in Hz. subst i. reflexivity.
Qed.

Lemma mapM_Forall2 {A B : Type} (f : A -> outcome B) (R : A -> B -> Prop) (l : list A) :
  Forall (fun a => exists b, f a = Done b /\ R a b) l ->
  exists bs, mapM f l = Done bs /\ Forall2 R l bs.
Proof.
  induction 1 as [|a l (b & Hb & HR) _ (bs & Hbs & HF)]; simpl.
  - exists []. split; [reflexivity|constructor].
  - rewrite Hb. simpl. rewrite Hbs. simpl.
    exists (b :: bs). split; [reflexivity|]. constructor; assumption.
Qed.

(** A render pass in any state the list has reached: the component has
    neither thrown nor been cut off, and each cell of the pass shows the
    item of its index at the prefix sum of its index. *)
Lemma lifetime_view (p : VirtualListProps) (evs : list event) :
  exists (st : State) (v : View) (s e : Z),
    lifetime p evs = Done st /\
    render p st = Done v /\
    spacer v = height st /\
    renderList st = from_length (e - s) s /\
    0 <= s /\ e <= Z.of_nat (length (data p)) - 1 /\
    Forall2
      (fun i c =>
         exists item,
           data p !! Z.to_nat i = Some item /\
           c = mkCell (id item) i (getCumulativeHeight (itemHeights st) i) (content item))
      (renderList st) (cells v).
Proof.
  destruct (lifetime_window p evs) as (st & s & e & Hlife & Hlist & Hs & He).
  destruct (mapM_Forall2 (renderCell p st)
    (fun i c =>
       exists item,
         data p !! Z.to_nat i = Some item /\
         c = mkCell (id item) i (getCumulativeHeight (itemHeights st) i) (content item))
    (renderList st)) as (cs & Hcs & HF).
  - rewrite Hlist. eapply Forall_impl; [apply from_length_Forall|].
    intros i Hi. simpl in Hi.
    destruct (renderCell_in_range p st i) as (item & Hitem & Hcell); [lia|].
    eexists. split; [exact Hcell|]. exists item. auto.
  - exists st, (mkView (height st) cs), s, e.
    split; [exact Hlife|]. split; [unfold render; rewrite Hcs; reflexivity|].
    split; [reflexivity|]. split; [exact Hlist|]. split; [exact Hs|].
    split; [exact He|exact HF].
Qed.



Lemma lookup_from_length (len start : Z) (i : nat) (x : Z) :
  from_length len start !! i = Some x ->
  x = Z.of_nat i + start /\ (i < Z.to_nat len)%nat.
Proof.
  unfold from_length. rewrite list_lookup_fmap. intros H.
  destruct (seq 0 (Z.to_nat len) !! i) as [k|] eqn:Hk; [|discriminate].
  apply lookup_seq in Hk as [-> Hlt]. simpl in H. injection H as <-.
  split; [reflexivity|exact Hlt].
Qed.

Lemma NoDup_from_length (len start : Z) : NoDup (from_length len start).
Proof.
  apply NoDup_alt. intros i j x Hi Hj.
  apply lookup_from_length in Hi as [Hi _].
  apply lookup_from_length in Hj as [Hj _]. lia.
Qed.

(** X13.  If the ids of the items are pairwise distinct, so are the keys of
    the cells of a render pass, at any time in the life of the list. *)
Theorem rendered_keys_distinct (p : VirtualListProps) (evs : list event) :
  NoDup (id <$> data p) ->
  exists (st : State) (v : View),
    lifetime p evs = Done st /\
    render p st = Done v /\
    NoDup (key <$> cells v).
Proof.
  intros Hids.
  destruct (lifetime_view p evs)
    as (st & v & s & e & Hlife & Hrender & _ & Hlist & Hs & _ & HF).
  exists st, v. split; [exact Hlife|]. split; [exact Hrender|].
  apply NoDup_alt. intros i j x Hi Hj.
  rewrite list_lookup_fmap in Hi, Hj.
  destruct (cells v !! i) as [c1|] eqn:Hc1; [|discriminate].
  destruct (cells v !! j) as [c2|] eqn:Hc2; [|discriminate].
  simpl in Hi, Hj. injection Hi as Hi. injection Hj as Hj.
  destruct (Forall2_lookup_r _ _ _ _ _ HF Hc1) as (a1 & Ha1 & item1 & Hitem1 & ->).
  destruct (Forall2_lookup_r _ _ _ _ _ HF Hc2) as (a2 & Ha2 & item2 & Hitem2 & ->).
  simpl in Hi, Hj.
  assert (Hsame : Z.to_nat a1 = Z.to_nat a2).
  { apply (NoDup_lookup _ _ _ x Hids); rewrite list_lookup_fmap.
    - rewrite Hitem1. simpl. congruence.
    - rewrite Hitem2. simpl. congruence. }
  rewrite Hlist in Ha1, Ha2.
  apply lookup_from_length in Ha1 as [Ha1 _].
  apply lookup_from_length in Ha2 as [Ha2 _]. lia.
Qed.

Lemma rendered_keys_distinct_witness :
  exists (st : State) (v : View),
    lifetime (sample_props 9 100 50 1) [Scroll 120; Measure 2 80] = Done st /\
    render (sample_props 9 100 50 1) st = Done v /\
    NoDup (key <$> cells v).
Proof.
  apply (rendered_keys_distinct (sample_props 9 100 50 1) [Scroll 120; Measure 2 80]).
  vm_compute. repeat constructor; rewrite ?list_elem_of_In; simpl;
    intuition discriminate.
Defined.

(** X14.  The layout that a render pass computes, in any state the list
    has reached: the pass places every cell at the prefix sum of its own
    index over the store as it is during the pass (for index 0 that is 0,
    so the special case in [DynamicItem] changes nothing), and each cell
    after the first is the item next to the one before it, placed exactly
    one stored height further down.  This is a property of the pass, not of
    the screen between passes: [updateH] triggers no pass, so cells mounted
    earlier keep their [top] while the store moves on (lemma
    [tops_stale_until_next_pass]). *)
Theorem cells_stacked (p : VirtualListProps) (evs : list event) :
  exists (st : State) (v : View),
    lifetime p evs = Done st /\
    render p st = Done v /\
    Forall (fun c => top c = getCumulativeHeight (itemHeights st) (cell_idx c))
           (cells v) /\
    forall (i : nat) (c1 c2 : Cell),
      cells v !! i = Some c1 -> cells v !! S i = Some c2 ->
      cell_idx c2 = cell_idx c1 + 1 /\
      top c2 = add (top c1) (to_number (getZ (itemHeights st) (cell_idx c1))).
Proof.
  destruct (lifetime_view p evs)
    as (st & v & s & e & Hlife & Hrender & _ & Hlist & Hs & _ & HF).
  exists st, v. split; [exact Hlife|]. split; [exact Hrender|]. split.
  - apply Forall_forall. intros c Hc.
    apply list_elem_of_lookup in Hc as [i Hi].
    destruct (Forall2_lookup_r _ _ _ _ _ HF Hi) as (a & _ & item & _ & ->).
    reflexivity.
  - intros i c1 c2 Hc1 Hc2.
    destruct (Forall2_lookup_r _ _ _ _ _ HF Hc1) as (a1 & Ha1 & item1 & _ & ->).
    destruct (Forall2_lookup_r _ _ _ _ _ HF Hc2) as (a2 & Ha2 & item2 & _ & ->).
    rewrite Hlist in Ha1, Ha2.
    apply lookup_from_length in Ha1 as [Ha1 _].
    apply lookup_from_length in Ha2 as [Ha2 _].
    simpl. split; [lia|].
    replace a2 with (a1 + 1) by lia.
    replace a1 with (Z.of_nat (Z.to_nat a1)) by lia.
    rewrite getCumulativeHeight_succ. unfold getZ.
    destruct (Z.of_nat (Z.to_nat a1) <? 0) eqn:Hneg;
      [apply Z.ltb_lt in Hneg; lia|].
    rewrite Nat2Z.id. reflexivity.
Qed.

(** Between two passes the layout goes stale.  Nine items estimated at 50:
    the pass after mounting puts cell 1 at 50; once cell 0 has reported a
    height of 80 the store says 80, but only a new pass would move cell 1
    there, and the measurement causes none (the state has changed in its
    store only). *)
Lemma tops_stale_until_next_pass :
  exists (st : State) (v v' : View),
    mount (sample_props 9 100 50 1) = Done st /\
    render (sample_props 9 100 50 1) st = Done v /\
    top <$> cells v = [Num 0; Num 50; Num 100; Num 150] /\
    step (sample_props 9 100 50 1) st (Measure 0 80) = Done (updateH 0 80 st) /\
    renderList (updateH 0 80 st) = renderList st /\
    scrollTop (updateH 0 80 st) = scrollTop st /\
    height (updateH 0 80 st) = height st /\
    render (sample_props 9 100 50 1) (updateH 0 80 st) = Done v' /\
    top <$> cells v' = [Num 0; Num 80; Num 130; Num 180].
Proof.
  eexists. eexists. eexists.
  split; [vm_compute; reflexivity|].
  split; [vm_compute; reflexivity|].
  repeat split; vm_compute; reflexivity.
Qed.

(** ** App *)

Lemma App_data_length (n : nat) (content : nat -> string) :
  length (App_data n content) = n.
Proof. unfold App_data. rewrite length_fmap. apply length_seq. Qed.

(** X15.  [App] gives its 100000 items pairwise distinct ids (as does any
    list built the same way), whatever the random contents: the keys
    [item-0], [item-1], ... never collide. *)
Theorem App_ids_distinct (n : nat) (content : nat -> string) :
  NoDup (id <$> App_data n content) /\
  NoDup (id <$> data (App_props content)).
Proof.
  assert (H : forall m, NoDup (id <$> App_data m content)).
  { intros m. unfold App_data. rewrite <- list_fmap_compose.
    apply NoDup_fmap_2_strong; [|apply NoDup_seq].
    intros x y _ _ Hxy. simpl in Hxy.
    apply (inj (String.app "item-")) in Hxy.
    apply (inj pretty) in Hxy. exact Hxy. }
  split; apply H.
Qed.

(** Mounting the list of [App] over any number of rows. *)
Lemma mount_rows (n : nat) (content : nat -> string) :
  (0 < n)%nat ->
  mount (VirtualList_props (App_data n content) 500 50 None) =
  Done (mkState 0 (filled n 50) (Num ((Z.of_nat n - 1) * 50))
          (from_length (Z.min (Z.of_nat n - 1) 20) 0)).
Proof.
  intros Hn.
  pose proof (App_data_length n content) as HN.
  pose proof (findEndIndex_filled (VirtualList_props (App_data n content) 500 50 None))
    as Hend.
  unfold VirtualList_props in *.
  cbn [data containerHeight estimatedItemHeight bufferCount default] in Hend.
  rewrite HN in Hend. specialize (Hend ltac:(lia) ltac:(lia) ltac:(lia) Hn).
  unfold mount, windowEffect, resolveWindow, initEffect, initial, set_itemHeights.
  cbn [data containerHeight estimatedItemHeight bufferCount default
       scrollTop itemHeights height renderList].
  rewrite findStartIndex_at_top, HN.
  change (Z.max 0 (Z.opp 5)) with 0. rewrite Hend.
  cbn [of_fuel bind].
  unfold heightEffect, set_height, set_renderList.
  cbn [data scrollTop itemHeights height renderList]. rewrite HN.
  destruct (n =? 0)%nat eqn:Hzero; [apply Nat.eqb_eq in Hzero; lia|].
  rewrite getCumulativeHeight_filled by lia.
  rewrite Z.sub_0_r. reflexivity.
Qed.

(** X16.  [App] on mounting: of its 100000 rows, estimated at 50 each in a
    container of 500 with the default buffer of 5, the list renders the 20
    cells of indices 0 to 19, over a spacer of 4999950. *)
Theorem App_mount (content : nat -> string) :
  mount (App_props content) =
  Done (mkState 0 (filled (Z.to_nat 100000) 50) (Num 4999950) (from_length 20 0)).
Proof.
  unfold App_props. rewrite mount_rows by lia.
  rewrite Z2Nat.id by lia.
  f_equal.
Qed.

(** ** Measurements do not move the window *)

Lemma run_app (p : VirtualListProps) (evs1 evs2 : list event) :
  forall st : State,
    run p (evs1 ++ evs2) st = (do st' <- run p evs1 st in run p evs2 st').
Proof.
  induction evs1 as [|ev evs1 IH]; intros st; simpl; [reflexivity|].
  destruct (step p st ev) as [st1| |]; simpl; [apply IH|reflexivity|reflexivity].
Qed.

Lemma run_measurements (p : VirtualListProps) (ms : list (Z * Z)) :
  forall st : State,
    exists st',
      run p ((fun m => Measure m.1 m.2) <$> ms) st = Done st' /\
      st' = foldl (fun s m => updateH m.1 m.2 s) st ms /\
      scrollTop st' = scrollTop st /\
      renderList st' = renderList st /\
      height st' = height st.
Proof.
  induction ms as [|m ms IH]; intros st; simpl.
  - exists st. auto.
  - destruct (IH (updateH m.1 m.2 st)) as (st' & Hrun & Hfold & Hs & Hr & Hh).
    exists st'. split; [exact Hrun|]. split; [exact Hfold|].
    unfold updateH in Hs, Hr, Hh. destruct (m.1 <? 0); simpl in *; auto.
Qed.

(** X17.  Reported heights never re-resolve the window: after any sequence
    of [updateH] writes, and even after a scroll event that reports the
    offset the list already has, the render list (as the scroll offset and
    the spacer) is what it was; only the store has changed. *)
Theorem measurements_keep_window (p : VirtualListProps) (st : State) (ms : list (Z * Z)) :
  exists st',
    run p (((fun m => Measure m.1 m.2) <$> ms) ++ [Scroll (scrollTop st)]) st = Done st' /\
    itemHeights st' = itemHeights (foldl (fun s m => updateH m.1 m.2 s) st ms) /\
    renderList st' = renderList st /\
    scrollTop st' = scrollTop st /\
    height st' = height st.
Proof.
  destruct (run_measurements p ms st) as (st' & Hrun & Hfold & Hs & Hr & Hh).
  exists st'. rewrite run_app, Hrun. simpl.
  unfold handleScroll. rewrite Hs, Z.eqb_refl. simpl.
  split; [reflexivity|]. rewrite <- Hfold. auto.
Qed.

(** ** One commit: every rendered cell reports its height *)

Lemma getZ_updateH (st : State) (idx h j : Z) :
  0 <= idx ->
  getZ (itemHeights (updateH idx h st)) j =
  if decide (j = idx) then Some h else getZ (itemHeights st) j.
Proof.
  intros Hidx. unfold updateH.
  destruct (idx <? 0) eqn:Hneg; [apply Z.ltb_lt in Hneg; lia|]. simpl.
  unfold getZ. destruct (j <? 0) eqn:Hj.
  - apply Z.ltb_lt in Hj. destruct (decide (j = idx)); [lia|reflexivity].
  - apply Z.ltb_ge in Hj. rewrite get_set.
    destruct (decide (Z.to_nat j = Z.to_nat idx)), (decide (j = idx));
      try reflexivity; lia.
Qed.

Lemma updateH_same (st : State) (idx h : Z) :
  0 <= idx -> getZ (itemHeights st) idx = Some h -> updateH idx h st = st.
Proof.
  intros Hidx Hget. unfold updateH.
  destruct (idx <? 0) eqn:Hneg; [reflexivity|].
  unfold getZ in Hget. rewrite Hneg in Hget. unfold get in Hget.
  destruct (itemHeights st !! Z.to_nat idx) as [c|] eqn:Hc; [|discriminate].
  simpl in Hget. subst c.
  unfold set. pose proof (lookup_lt_Some _ _ _ Hc) as Hlt.
  destruct (decide (Z.to_nat idx < length (itemHeights st))%nat); [|lia].
  rewrite (list_insert_id _ _ _ Hc). destruct st; reflexivity.
Qed.

Lemma measure_fold (f : Z -> Z) :
  forall (l : list Z) (st : State),
    Forall (fun i => 0 <= i < Z.of_nat (length (itemHeights st))) l ->
    length (itemHeights (foldl (fun s idx => updateH idx (f idx) s) st l))
      = length (itemHeights st) /\
    renderList (foldl (fun s idx => updateH idx (f idx) s) st l) = renderList st /\
    scrollTop (foldl (fun s idx => updateH idx (f idx) s) st l) = scrollTop st /\
    height (foldl (fun s idx => updateH idx (f idx) s) st l) = height st /\
    forall j : Z,
      getZ (itemHeights (foldl (fun s idx => updateH idx (f idx) s) st l)) j =
      if decide (j ∈ l) then Some (f j) else getZ (itemHeights st) j.
Proof.
  induction l as [|i l IH]; intros st Hl; simpl.
  - repeat split; reflexivity.
  - apply Forall_cons in Hl as [Hi Hl].
    assert (Hlen : length (itemHeights (updateH i (f i) st))
                   = length (itemHeights st)).
    { unfold updateH. destruct (i <? 0); [reflexivity|].
      simpl. apply length_set_lt. lia. }
    destruct (IH (updateH i (f i) st)) as (Hlen' & Hr & Hs & Hh & Hget).
    { rewrite Hlen. exact Hl. }
    split; [congruence|].
    assert (Hframe : renderList (updateH i (f i) st) = renderList st /\
                     scrollTop (updateH i (f i) st) = scrollTop st /\
                     height (updateH i (f i) st) = height st).
    { unfold updateH. destruct (i <? 0); simpl; auto. }
    destruct Hframe as (Hr0 & Hs0 & Hh0).
    split; [congruence|]. split; [congruence|]. split; [congruence|].
    intros j. rewrite Hget, getZ_updateH by lia.
    destruct (decide (j ∈ l)) as [Hin|Hnin].
    + destruct (decide (j ∈ i :: l)) as [_|Hn]; [reflexivity|].
      exfalso. apply Hn. apply elem_of_cons. auto.
    + destruct (decide (j = i)) as [->|Hne].
      * destruct (decide (i ∈ i :: l)) as [_|Hn]; [reflexivity|].
        exfalso. apply Hn. apply elem_of_cons. auto.
      * destruct (decide (j ∈ i :: l)) as [Hin|_]; [|reflexivity].
        apply elem_of_cons in Hin as [?|?]; contradiction.
Qed.

Lemma length_updateH (idx h : Z) (st : State) :
  (length (itemHeights st) <= length (itemHeights (updateH idx h st)))%nat.
Proof.
  unfold updateH. destruct (idx <? 0); [lia|]. simpl. rewrite length_set. lia.
Qed.

Lemma run_length (p : VirtualListProps) (evs : list event) :
  forall st : State,
    exists st',
      run p evs st = Done st' /\
      (length (itemHeights st) <= length (itemHeights st'))%nat.
Proof.
  induction evs as [|ev evs IH]; intros st; simpl.
  - exists st. auto.
  - destruct (step_Done p st ev) as (st1 & Hstep & _ & Hhs & _).
    destruct (IH st1) as (st2 & Hrun & Hlen).
    exists st2. rewrite Hstep. simpl. split; [exact Hrun|].
    rewrite Hhs in Hlen. destruct ev as [v|idx h]; [exact Hlen|].
    pose proof (length_updateH idx h st). lia.
Qed.

(** The store never has fewer entries than there are items. *)
Lemma lifetime_length (p : VirtualListProps) (evs : list event) :
  exists st,
    lifetime p evs = Done st /\
    (length (data p) <= length (itemHeights st))%nat.
Proof.
  destruct (mount_Done p) as (s & e & _ & Hmount & _).
  unfold lifetime. rewrite Hmount. simpl.
  destruct (run_length p evs
    (heightEffect p (set_renderList (initEffect p initial) (from_length (e - s) s))))
    as (st & Hrun & Hlen).
  exists st. split; [exact Hrun|].
  simpl in Hlen. unfold filled in Hlen. rewrite length_replicate in Hlen. exact Hlen.
Qed.

Lemma measure_fold_same (f : Z -> Z) :
  forall (l : list Z) (st : State),
    Forall (fun i => 0 <= i /\ getZ (itemHeights st) i = Some (f i)) l ->
    foldl (fun s idx => updateH idx (f idx) s) st l = st.
Proof.
  induction l as [|i l IH]; intros st Hl; simpl; [reflexivity|].
  apply Forall_cons in Hl as [[Hi Hget] Hl].
  rewrite (updateH_same st i (f i) Hi Hget). apply IH, Hl.
Qed.

(** X18.  One commit of the rendered cells, at any time in the life of the
    list and whatever heights [offsetHeight] the layout reports: each cell
    writes inside the store (it never grows), entry [i] of a rendered cell
    then holds [offsetHeight(i)], every other entry is untouched, the render
    list is not changed, and a second commit with the same layout changes
    nothing. *)
Theorem commit_measures_rendered_cells
    (p : VirtualListProps) (evs : list event) (offsetHeight : Z -> Z) :
  exists st,
    lifetime p evs = Done st /\
    length (itemHeights (measureCells offsetHeight st)) = length (itemHeights st) /\
    renderList (measureCells offsetHeight st) = renderList st /\
    (forall j : Z,
       getZ (itemHeights (measureCells offsetHeight st)) j =
       if decide (j ∈ renderList st) then Some (offsetHeight j)
       else getZ (itemHeights st) j) /\
    measureCells offsetHeight (measureCells offsetHeight st)
      = measureCells offsetHeight st.
Proof.
  destruct (lifetime_window p evs) as (st & s & e & Hlife & Hlist & Hs & He).
  destruct (lifetime_length p evs) as (st' & Hlife' & Hlen).
  assert (st' = st) as -> by congruence.
  assert (Hin : Forall (fun i => 0 <= i < Z.of_nat (length (itemHeights st)))
                       (renderList st)).
  { rewrite Hlist. eapply Forall_impl; [apply from_length_Forall|].
    intros i Hi. simpl in Hi. lia. }
  destruct (measure_fold offsetHeight (renderList st) st Hin)
    as (Hlen' & Hr & _ & _ & Hget).
  exists st. split; [exact Hlife|].
  unfold measureCells at 1 2 3. split; [exact Hlen'|]. split; [exact Hr|].
  split; [exact Hget|].
  unfold measureCells at 1. fold (measureCells offsetHeight st).
  apply measure_fold_same.
  apply Forall_forall. intros i Hi.
  unfold measureCells in Hi at 1. rewrite Hr in Hi.
  split.
  - rewrite Forall_forall in Hin. apply (Hin i Hi).
  - unfold measureCells. rewrite Hget.
    destruct (decide (i ∈ renderList st)); [reflexivity|contradiction].
Qed.

(** ** One cell: hidden until measured *)

Lemma cellLife_snoc (idx : Z) (els : list (option Z)) (el : option Z) (st : State) :
  cellLife idx (els ++ [el]) st = refCallback idx el (cellLife idx els st).
Proof. unfold cellLife. rewrite foldl_app. reflexivity. Qed.

(** X19.  A cell starts hidden and its ref callback is the only thing that
    shows it.  So, after any sequence of invocations of the callback (with
    the element or with [null]): a visible cell has written into its own
    entry of the store a height it measured, and that entry holds the last
    height measured; a cell still hidden has not touched the list's state
    at all. *)
Theorem visible_cell_is_measured (k : nat) (els : list (option Z)) (st : State) :
  (visibility (cellLife (Z.of_nat k) els st).2 = "visible" ->
   exists h : Z,
     Some h ∈ els /\
     last (filter is_Some els) = Some (Some h) /\
     getZ (itemHeights (cellLife (Z.of_nat k) els st).1) (Z.of_nat k) = Some h) /\
  (visibility (cellLife (Z.of_nat k) els st).2 = "hidden" ->
   (cellLife (Z.of_nat k) els st).1 = st /\ Forall (fun el => el = None) els).
Proof.
  induction els as [|el els IH] using rev_ind.
  - split; [discriminate|]. intros _. split; [reflexivity|constructor].
  - rewrite cellLife_snoc. destruct el as [h|]; simpl.
    + split; [|discriminate]. intros _. exists h.
      split; [apply elem_of_app; right; apply list_elem_of_singleton; reflexivity|].
      split.
      * rewrite filter_app, filter_cons_True by (eexists; reflexivity).
        rewrite filter_nil. apply last_snoc.
      * rewrite getZ_updateH by lia.
        destruct (decide (Z.of_nat k = Z.of_nat k)); [reflexivity|contradiction].
    + destruct IH as [IHv IHh]. split.
      * intros Hv. destruct (IHv Hv) as (h & Hin & Hlast & Hget).
        exists h. split; [apply elem_of_app; auto|].
        split; [|exact Hget].
        rewrite filter_app, filter_cons_False by (apply is_Some_None).
        rewrite filter_nil, app_nil_r. exact Hlast.
      * intros Hh. destruct (IHh Hh) as [Hst Hall].
        split; [exact Hst|]. apply Forall_app. split; [exact Hall|].
        constructor; [reflexivity|constructor].
Qed.

(** * The counter page *)

(** X20.  The counter is shown in blue exactly when it is even, for negative
    counters too (the remainder of a negative odd number is -1, not 1, and
    the test compares with 0 only). *)
Theorem countColor_blue_iff_even (c : Z) :
  Index.countColor c = (if Z.even c then "blue" else "#333").
Proof.
  unfold Index.countColor.
  destruct (Z.even c) eqn:Heven.
  - apply Z.even_spec in Heven as [m ->].
    replace (2 * m) with (m * 2) by lia.
    rewrite Z.rem_mul by lia. reflexivity.
  - destruct (Z.rem c 2 =? 0) eqn:Hrem; [|reflexivity].
    apply Z.eqb_eq in Hrem. apply Z.rem_divide in Hrem; [|lia].
    destruct Hrem as [m ->].
    rewrite Z.even_mul in Heven. simpl in Heven.
    rewrite orb_true_r in Heven. discriminate.
Qed.

Lemma last_cons_default (c : Z) (cs : list Z) (d d' : Z) :
  List.last (c :: cs) d = List.last (c :: cs) d'.
Proof.
  revert c. induction cs as [|c' cs IH]; intros c; [reflexivity|].
  change (List.last (c :: c' :: cs) d) with (List.last (c' :: cs) d).
  change (List.last (c :: c' :: cs) d') with (List.last (c' :: cs) d').
  apply IH.
Qed.

Lemma history_appends_changes (cs : list Z) :
  forall pg : Index.Page,
    Index.ids (foldl Index.counterChanged pg cs) =
      Index.ids pg ++ Index.changes (Index.counter pg) cs /\
    Index.counter (foldl Index.counterChanged pg cs) =
      List.last cs (Index.counter pg).
Proof.
  induction cs as [|c cs IH]; intros pg.
  - simpl. rewrite app_nil_r. auto.
  - change (foldl Index.counterChanged pg (c :: cs))
      with (foldl Index.counterChanged (Index.counterChanged pg c) cs).
    destruct (IH (Index.counterChanged pg c)) as [Hids Hc].
    rewrite Hids, Hc. unfold Index.counterChanged. simpl Index.changes.
    destruct (c =? Index.counter pg) eqn:Hsame.
    + apply Z.eqb_eq in Hsame. split; [reflexivity|].
      destruct cs as [|c' cs]; [simpl; congruence|reflexivity].
    + simpl. rewrite <- app_assoc. split; [reflexivity|].
      destruct cs as [|c' cs]; [reflexivity|].
      change (List.last (c :: c' :: cs) (Index.counter pg))
        with (List.last (c' :: cs) (Index.counter pg)).
      apply last_cons_default.
Qed.

Lemma changes_adjacent (cs : list Z) :
  forall (cur : Z) (i : nat) (a b : Z),
    (cur :: Index.changes cur cs) !! i = Some a ->
    (cur :: Index.changes cur cs) !! S i = Some b ->
    a <> b.
Proof.
  induction cs as [|c cs IH]; intros cur i a b Ha Hb.
  - destruct i; discriminate.
  - simpl Index.changes in Ha, Hb.
    destruct (c =? cur) eqn:Hsame; [apply (IH cur i a b Ha Hb)|].
    apply Z.eqb_neq in Hsame. destruct i as [|i].
    + simpl in Ha, Hb. congruence.
    + apply (IH c i a b); [exact Ha|exact Hb].
Qed.

(** X21.  The history on the counter page, after mounting with the counter
    at [c0] and any sequence [cs] of values of the counter, is exactly the 0
    it was created with, then [c0], then each value of [cs] that differs
    from the value before it: one entry per change of the counter, none for
    a value equal to the current one.  So it ends with the counter now
    shown, and from its second entry on no two neighbours are equal. *)
Theorem history_follows_counter (c0 : Z) (cs : list Z) :
  Index.ids (Index.pageLife c0 cs) = 0 :: c0 :: Index.changes c0 cs /\
  length (Index.ids (Index.pageLife c0 cs)) = (2 + length (Index.changes c0 cs))%nat /\
  (length (Index.changes c0 cs) <= length cs)%nat /\
  Index.counter (Index.pageLife c0 cs) = List.last cs c0 /\
  head (Index.ids (Index.pageLife c0 cs)) = Some 0 /\
  last (Index.ids (Index.pageLife c0 cs)) = Some (Index.counter (Index.pageLife c0 cs)) /\
  forall (i : nat) (a b : Z),
    (1 <= i)%nat ->
    Index.ids (Index.pageLife c0 cs) !! i = Some a ->
    Index.ids (Index.pageLife c0 cs) !! S i = Some b ->
    a <> b.
Proof.
  destruct (history_appends_changes cs (Index.mountPage c0)) as [Hids Hc].
  unfold Index.pageLife. rewrite Hids, Hc. simpl.
  split; [reflexivity|]. split; [reflexivity|]. split.
  { clear. revert c0. induction cs as [|c cs IH]; intros c0; simpl; [lia|].
    destruct (c =? c0); [specialize (IH c0)|specialize (IH c)]; simpl; lia. }
  split; [reflexivity|]. split; [reflexivity|]. split.
  - clear. revert c0. induction cs as [|c cs IH]; intros c0; [reflexivity|].
    simpl Index.changes. destruct (c =? c0) eqn:Hsame.
    + apply Z.eqb_eq in Hsame. subst c. rewrite IH.
      destruct cs; reflexivity.
    + change (last (c0 :: c :: Index.changes c cs))
        with (last (c :: Index.changes c cs)).
      rewrite IH. destruct cs as [|c' cs]; [reflexivity|]. f_equal.
      change (List.last (c :: c' :: cs) c0) with (List.last (c' :: cs) c0).
      apply last_cons_default.
  - intros i a b Hi Ha Hb. destruct i as [|i]; [lia|].
    apply (changes_adjacent cs c0 i a b); [exact Ha|exact Hb].
Qed.
